(** * ATS resume scorer: scoring and recommendation engine

    A shallow embedding of [src/scorer.py] ([EnhancedATSResumeScorer]) and
    [src/recommender.py] ([ResumeRecommender]), with the properties of the
    engine stated and proved over it; and of the parts of
    [src/model_manager.py] and [src/report_generator.py] next to them: the
    store of fitted vectorizers the scorer is constructed from, and the
    score levels and keyword table of the report.

    Conventions of the embedding.
    - A Python [str] is a [string]; a character is a code point below 256,
      and the Unicode predicates Python applies ([str.lower], [str.isalpha],
      the whitespace class of [re] and [str.strip]) are written out for
      that range.
    - A Python [float] is an exact rational ([Q]); the rounding error of
      binary floating point is not modelled.
    - [None] or a string is an [option string].
    - A raised exception is the [Raise] case of [result].
    - The library calls the code makes (NLTK's tokenizer, scikit-learn's
      row normalisation, the iteration order of a CPython [set], the
      fitting of a vectorizer and the loading of an embedding model) are
      parameters of the development.
    - The files of the model store are a map from path to content;
      [joblib.load] gives back the object [joblib.dump] stored. *)

From Stdlib Require Import Ascii NArith QArith Qround Lqa.
From stdpp Require Import base list strings gmap sorting.

Open Scope string_scope.

(** ** Python values and exceptions *)

Inductive exn : Type :=
  | KeyError (key : string)
  | TypeError
  | ValueError
  | ZeroDivisionError.

Inductive result (A : Type) : Type :=
  | Ok (a : A)
  | Raise (e : exn).
Arguments Ok {A} a.
Arguments Raise {A} e.

#[global] Instance result_ret : MRet result := fun A a => Ok a.

#[global] Instance result_bind : MBind result := fun A B k m =>
  match m with
  | Ok a => k a
  | Raise e => Raise e
  end.

(** [try: ... except Exception: return d] *)
Definition try_except {A : Type} (m : result A) (d : A) : A :=
  match m with
  | Ok a => a
  | Raise _ => d
  end.

(** ** Characters and strings *)

Module Str.

Definition code (c : ascii) : N := N_of_ascii c.

Definition between (lo hi : N) (c : ascii) : bool :=
  ((lo <=? code c) && (code c <=? hi))%N.

(** [a-z], [A-Z], [0-9] of the regular expressions. *)
Definition is_az (c : ascii) : bool := between 97 122 c.
Definition is_AZ (c : ascii) : bool := between 65 90 c.
Definition is_09 (c : ascii) : bool := between 48 57 c.

(** Whitespace as [\s] and [str.strip] see it: TAB..CR, FS..US, SPACE,
    NEL and NBSP. *)
Definition isspace (c : ascii) : bool :=
  between 9 13 c || between 28 32 c || (code c =? 133)%N || (code c =? 160)%N.

(** Characters with an upper-case/lower-case pair 32 apart: A-Z, and in the
    Latin-1 block À-Ö and Ø-Þ. *)
Definition is_upper (c : ascii) : bool :=
  between 65 90 c || between 192 214 c || between 216 222 c.

Definition is_lower (c : ascii) : bool :=
  between 97 122 c || between 223 246 c || between 248 255 c
  || (code c =? 170)%N || (code c =? 181)%N || (code c =? 186)%N.

Definition char_lower (c : ascii) : ascii :=
  if is_upper c then ascii_of_N (code c + 32) else c.

Definition char_isalpha (c : ascii) : bool := is_upper c || is_lower c.

Fixpoint map (f : ascii -> ascii) (s : string) : string :=
  match s with
  | EmptyString => EmptyString
  | String c s' => String (f c) (map f s')
  end.

Fixpoint forallb (p : ascii -> bool) (s : string) : bool :=
  match s with
  | EmptyString => true
  | String c s' => p c && forallb p s'
  end.

Fixpoint existsb (p : ascii -> bool) (s : string) : bool :=
  match s with
  | EmptyString => false
  | String c s' => p c || existsb p s'
  end.

(** [s.lower()] *)
Definition lower (s : string) : string := map char_lower s.

(** [s.isalpha()]: every character alphabetic and at least one character. *)
Definition isalpha (s : string) : bool :=
  match s with
  | EmptyString => false
  | _ => forallb char_isalpha s
  end.

Definition is_empty (s : string) : bool :=
  match s with
  | EmptyString => true
  | String _ _ => false
  end.

(** [s.lstrip()], [s.rstrip()], [s.strip()] *)
Fixpoint lstrip (s : string) : string :=
  match s with
  | EmptyString => EmptyString
  | String c s' => if isspace c then lstrip s' else s
  end.

Fixpoint rstrip (s : string) : string :=
  match s with
  | EmptyString => EmptyString
  | String c s' =>
      match rstrip s' with
      | EmptyString => if isspace c then EmptyString else String c EmptyString
      | r => String c r
      end
  end.

Definition strip (s : string) : string := rstrip (lstrip s).

(** [sub in s] for strings: [s] has a suffix that starts with [sub]. *)
Fixpoint startswith (p s : string) : bool :=
  match p, s with
  | EmptyString, _ => true
  | String a p', String b s' => Ascii.eqb a b && startswith p' s'
  | String _ _, EmptyString => false
  end.

Fixpoint contains (sub s : string) : bool :=
  startswith sub s ||
  match s with
  | EmptyString => false
  | String _ s' => contains sub s'
  end.

(** [sep.join(l)] *)
Fixpoint join (sep : string) (l : list string) : string :=
  match l with
  | [] => EmptyString
  | [x] => x
  | x :: l' => x +:+ sep +:+ join sep l'
  end.

End Str.

(** ** Regular-expression substitutions used by the scorer *)

Module Re.

(** [re.sub(r'[^a-zA-Z0-9\s]', ' ', text)]: a character outside the class
    becomes one space. *)
Definition keeps (c : ascii) : bool :=
  Str.is_az c || Str.is_AZ c || Str.is_09 c || Str.isspace c.

Definition sub_non_alnum_char (c : ascii) : ascii :=
  if keeps c then c else " "%char.

Definition sub_non_alnum (text : string) : string :=
  Str.map sub_non_alnum_char text.

(** [re.sub(r'\s+', ' ', text)]: each maximal run of whitespace becomes one
    space. [in_run] tells that the previous character was whitespace. *)
Fixpoint sub_ws_from (in_run : bool) (text : string) : string :=
  match text with
  | EmptyString => EmptyString
  | String c rest =>
      if Str.isspace c
      then if in_run then sub_ws_from true rest
           else String " "%char (sub_ws_from true rest)
      else String c (sub_ws_from false rest)
  end.

Definition sub_ws (text : string) : string := sub_ws_from false text.

(** [re.search(r'[^\x00-\x7F]', text)] as a truth value. *)
Definition has_non_ascii (text : string) : bool :=
  Str.existsb (fun c => (127 <? Str.code c)%N) text.

End Re.

(** Truth value of a possibly-[None] string: [None] and [''] are false. *)
Definition truthy (text : option string) : bool :=
  match text with
  | Some (String _ _) => true
  | _ => false
  end.

(** ** [preprocess_text] (scorer.py) *)

Definition preprocess_text (text : option string) : string :=
  match text with
  | Some (String c s) =>
      let text := Str.lower (String c s) in
      let text := Re.sub_non_alnum text in
      let text := Str.strip (Re.sub_ws text) in
      text
  | _ => ""
  end.

(** The normaliser as the specification words it: lower-case the text,
    replace every character outside [[a-zA-Z0-9 ]] by a space, collapse runs
    of whitespace, trim. *)
Module NormalizerSpec.

Definition in_class (c : ascii) : bool :=
  Str.is_az c || Str.is_AZ c || Str.is_09 c || Ascii.eqb c " "%char.

Definition replace_outside_class (s : string) : string :=
  Str.map (fun c => if in_class c then c else " "%char) s.

Definition collapse_whitespace (s : string) : string := Re.sub_ws s.

Definition trim (s : string) : string := Str.strip s.

Definition normalize (text : option string) : string :=
  match text with
  | None => ""
  | Some s => trim (collapse_whitespace (replace_outside_class (Str.lower s)))
  end.

End NormalizerSpec.

(** ** Numbers *)

Local Open Scope Q_scope.

(** Round half to even, the rule of Python's [round]. *)
Definition round_half_even (x : Q) : Z :=
  let f := Qfloor x in
  match Qcompare (x - inject_Z f) (1 # 2) with
  | Lt => f
  | Gt => (f + 1)%Z
  | Eq => if Z.even f then f else (f + 1)%Z
  end.

(** [round(x, ndigits)] *)
Definition round (x : Q) (ndigits : nat) : Q :=
  let p := inject_Z (10 ^ Z.of_nat ndigits) in
  inject_Z (round_half_even (x * p)) / p.

(** [x < y] on numbers *)
Definition Qltb (x y : Q) : bool := negb (Qle_bool y x).

(** [a / b] on numbers, which raises on a zero divisor. *)
Definition truediv (a b : Q) : result Q :=
  if Qeq_bool b 0 then Raise ZeroDivisionError else Ok (a / b).

Local Close Scope Q_scope.

(** ** Lists and dictionaries *)

(** [l[:k]]: a negative [k] counts from the end. *)
Definition slice_to {A : Type} (k : Z) (l : list A) : list A :=
  if (0 <=? k)%Z then take (Z.to_nat k) l
  else take (length l - Z.to_nat (- k)) l.

(** The values stored in the analysis dictionary. *)
Inductive value : Type :=
  | VNum (q : Q)
  | VStr (s : string)
  | VBool (b : bool)
  | VList (l : list string).

(** A dictionary with string keys, in insertion order. *)
Definition dict (V : Type) : Type := list (string * V).

Fixpoint dict_get {V : Type} (k : string) (d : dict V) : option V :=
  match d with
  | [] => None
  | (k', v) :: d' => if String.eqb k' k then Some v else dict_get k d'
  end.

(** [d[k] = f(d[k])] for a key that must exist: [KeyError] otherwise. *)
Fixpoint dict_update {V : Type} (k : string) (f : V -> V) (d : dict V)
  : result (dict V) :=
  match d with
  | [] => Raise (KeyError k)
  | (k', v) :: d' =>
      if String.eqb k' k then Ok ((k', f v) :: d')
      else d'' ← dict_update k f d'; Ok ((k', v) :: d'')
  end.

(** [d[k] = d.get(k, 0) + 1]: a new key goes last, a known key keeps its
    place. *)
Fixpoint dict_incr (k : string) (d : dict nat) : dict nat :=
  match d with
  | [] => [(k, 1%nat)]
  | (k', n) :: d' =>
      if String.eqb k' k then (k', S n) :: d' else (k', n) :: dict_incr k d'
  end.

(** The counting loop of [extract_keywords]. *)
Definition count_keywords (keywords : list string) : dict nat :=
  fold_left (fun keyword_freq keyword => dict_incr keyword keyword_freq)
            keywords [].

(** [sorted(items, key=lambda x: x[1], reverse=True)]: Python's sort is
    stable, also with [reverse=True], so items of equal count keep their
    order. Written as an insertion sort from the right. *)
Fixpoint insert_desc (x : string * nat) (l : list (string * nat))
  : list (string * nat) :=
  match l with
  | [] => [x]
  | y :: l' =>
      if (x.2 <? y.2)%nat then y :: insert_desc x l' else x :: y :: l'
  end.

Definition sorted_desc (items : list (string * nat)) : list (string * nat) :=
  foldr insert_desc [] items.

(** ** The scorer (scorer.py) *)

(** [sklearn.metrics.pairwise.cosine_similarity] on two rows: both rows are
    L2-normalised and multiplied; rows of different widths are rejected.
    The normalisation (a square root) is left to the parameter. *)
Definition dot (u v : list Q) : Q := foldr Qplus 0%Q (zip_with Qmult u v).

Definition cosine_similarity (l2_normalize : list Q -> list Q)
    (x y : list Q) : result Q :=
  if decide (length x = length y)
  then Ok (dot (l2_normalize x) (l2_normalize y))
  else Raise ValueError.

(** The attributes of a scorer object that its methods read. A [transform]
    or [encode] call yields one row vector or raises. *)
Record EnhancedATSResumeScorer : Type := {
  use_huggingface : bool;
  stop_words : gset string;
  vectorizer : string -> result (list Q);
  hf_model : option (string -> result (list Q))
}.

(** The result of [calculate_hybrid_similarity], a dictionary with four
    fixed keys. *)
Record SimilarityResults : Type := {
  combined_similarity : Q;
  tfidf_similarity : Q;
  huggingface_similarity : Q;
  method : string
}.

(** [str(e)]: the quoted key for a [KeyError], a fixed text otherwise. *)
Definition exn_str (e : exn) : string :=
  match e with
  | KeyError k => "'" +:+ k +:+ "'"
  | TypeError => "unsupported operand type"
  | ValueError => "Incompatible dimension for X and Y matrices"
  | ZeroDivisionError => "division by zero"
  end.

Section Scorer.

(** [nltk.tokenize.word_tokenize] *)
Variable word_tokenize : string -> list string.
(** [sklearn.preprocessing.normalize] on one row *)
Variable l2_normalize : list Q -> list Q.
(** [list(s)] on a set of strings: the order in which the hash table is
    walked. *)
Variable set_to_list : gset string -> list string.

Variable self : EnhancedATSResumeScorer.

(** The filter of the list comprehension in [extract_keywords]. *)
Definition is_keyword (token : string) : bool :=
  bool_decide (token ∉ stop_words self)
  && (2 <? String.length token)%nat
  && Str.isalpha token.

Definition extract_keywords (text : option string) (top_k : Z) : list string :=
  match text with
  | Some (String c s) =>
      let tokens := word_tokenize (Str.lower (String c s)) in
      let keywords := List.filter is_keyword tokens in
      let keyword_freq := count_keywords keywords in
      let sorted_keywords := sorted_desc keyword_freq in
      (slice_to top_k sorted_keywords).*1
  | _ => []
  end.

Definition calculate_tfidf_similarity (resume_text job_description : option string)
  : Q :=
  try_except
    (let resume_clean := preprocess_text resume_text in
     let job_clean := preprocess_text job_description in
     if Str.is_empty resume_clean || Str.is_empty job_clean then Ok 0%Q
     else
       resume_vector ← vectorizer self resume_clean;
       job_vector ← vectorizer self job_clean;
       cosine_similarity l2_normalize resume_vector job_vector)
    0%Q.

Definition calculate_huggingface_similarity
    (resume_text job_description : option string) : Q :=
  match hf_model self with
  | None => 0%Q
  | Some encode =>
      try_except
        (let resume_clean := preprocess_text resume_text in
         let job_clean := preprocess_text job_description in
         if Str.is_empty resume_clean || Str.is_empty job_clean then Ok 0%Q
         else
           resume_embedding ← encode resume_clean;
           job_embedding ← encode job_clean;
           cosine_similarity l2_normalize resume_embedding job_embedding)
        0%Q
  end.

Definition calculate_hybrid_similarity
    (resume_text job_description : option string) : SimilarityResults :=
  let tfidf_sim := calculate_tfidf_similarity resume_text job_description in
  let hf_sim :=
    if use_huggingface self
    then calculate_huggingface_similarity resume_text job_description
    else 0%Q in
  if use_huggingface self && bool_decide (is_Some (hf_model self))
  then {| combined_similarity := ((7 # 10) * hf_sim + (3 # 10) * tfidf_sim)%Q;
          tfidf_similarity := tfidf_sim;
          huggingface_similarity := hf_sim;
          method := "hybrid_huggingface_tfidf" |}
  else {| combined_similarity := tfidf_sim;
          tfidf_similarity := tfidf_sim;
          huggingface_similarity := hf_sim;
          method := "tfidf_only" |}.

Definition find_missing_keywords (resume_text job_description : option string)
  : list string :=
  let resume_keywords : gset string :=
    list_to_set (extract_keywords resume_text 20) in
  let job_keywords : gset string :=
    list_to_set (extract_keywords job_description 20) in
  let missing_keywords := job_keywords ∖ resume_keywords in
  take 10 (set_to_list missing_keywords).

(** A pictograph in a message literal stands as its UTF-8 bytes. *)
Definition generate_suggestions (missing_keywords : list string) (ats_score : Q)
  : list string :=
  let suggestions :=
    if Qltb ats_score 30
    then ["🔴 Critical: Resume needs significant improvement"]
    else if Qltb ats_score 50
    then ["🟡 Moderate: Resume needs improvement"]
    else if Qltb ats_score 70
    then ["🟢 Good: Resume is well-aligned but could improve"]
    else ["✅ Excellent: Resume is very well-aligned"] in
  let suggestions :=
    match missing_keywords with
    | [] => suggestions
    | _ => (suggestions ++
            ["📝 Add missing keywords: "
               +:+ Str.join ", " (take 5 missing_keywords)])%list
    end in
  if Qltb ats_score 60
  then (suggestions ++ ["💡 Include more specific technical skills";
                        "📊 Quantify achievements with numbers";
                        "🎯 Tailor experience to job requirements"])%list
  else suggestions.

(** [keyword_overlap] and [keyword_coverage] of [calculate_ats_score]. *)
Definition keyword_overlap_of (resume_keywords job_keywords : list string) : nat :=
  size ((list_to_set resume_keywords : gset string) ∩ list_to_set job_keywords).

Definition keyword_coverage_of (keyword_overlap : nat) (job_keywords : list string)
  : result Q :=
  match job_keywords with
  | [] => Ok 0%Q
  | _ :: _ =>
      ratio ← truediv (inject_Z (Z.of_nat keyword_overlap))
                      (inject_Z (Z.of_nat (length job_keywords)));
      Ok (ratio * 100)%Q
  end.

(** The [try] block of [calculate_ats_score]. *)
Definition calculate_ats_score_body (resume_text job_description : option string)
  : result (dict value) :=
  let similarity_results := calculate_hybrid_similarity resume_text job_description in
  let ats_score := (combined_similarity similarity_results * 100)%Q in
  let resume_keywords := extract_keywords resume_text 20 in
  let job_keywords := extract_keywords job_description 20 in
  let missing_keywords := find_missing_keywords resume_text job_description in
  let keyword_overlap := keyword_overlap_of resume_keywords job_keywords in
  keyword_coverage ← keyword_coverage_of keyword_overlap job_keywords;
  let suggestions := generate_suggestions missing_keywords ats_score in
  Ok [ ("ats_score", VNum (round ats_score 2));
       ("similarity_score", VNum (round (combined_similarity similarity_results) 4));
       ("tfidf_similarity", VNum (round (tfidf_similarity similarity_results) 4));
       ("huggingface_similarity",
          VNum (round (huggingface_similarity similarity_results) 4));
       ("keyword_coverage", VNum (round keyword_coverage 2));
       ("resume_keywords", VList (take 15 resume_keywords));
       ("job_keywords", VList (take 15 job_keywords));
       ("missing_keywords", VList missing_keywords);
       ("suggestions", VList suggestions);
       ("model_method", VStr (method similarity_results));
       ("huggingface_available", VBool (use_huggingface self));
       ("analysis_type", VStr "enhanced_hybrid") ].

(** The dictionary of the [except] branch. *)
Definition error_analysis (e : exn) : dict value :=
  [ ("ats_score", VNum 0);
    ("similarity_score", VNum 0);
    ("tfidf_similarity", VNum 0);
    ("huggingface_similarity", VNum 0);
    ("keyword_coverage", VNum 0);
    ("resume_keywords", VList []);
    ("job_keywords", VList []);
    ("missing_keywords", VList []);
    ("suggestions", VList ["Error in analysis. Please try again."]);
    ("model_method", VStr "error");
    ("huggingface_available", VBool false);
    ("analysis_type", VStr "enhanced_hybrid");
    ("error", VStr (exn_str e)) ].

Definition calculate_ats_score (resume_text job_description : option string)
  : dict value :=
  match calculate_ats_score_body resume_text job_description with
  | Ok analysis => analysis
  | Raise e => error_analysis e
  end.

End Scorer.

(** ** Model store (model_manager.py) and construction of the scorer *)

(** A fitted [TfidfVectorizer], by its [transform] on one text. *)
Definition Vectorizer : Type := string -> result (list Q).

(** A loaded [SentenceTransformer], by its [encode] on one text. *)
Definition Encoder : Type := string -> result (list Q).

Module Path.

Fixpoint endswith_char (c : ascii) (s : string) : bool :=
  match s with
  | EmptyString => false
  | String a EmptyString => Ascii.eqb a c
  | String _ rest => endswith_char c rest
  end.

(** [os.path.join(a, b)] on a POSIX system *)
Definition join (a b : string) : string :=
  if Str.startswith "/" b then b
  else if Str.is_empty a || endswith_char "/" a then a +:+ b
  else a +:+ "/" +:+ b.

End Path.

(** What a file holds: a pickled vectorizer, or the JSON description that
    [save_tfidf_model] writes next to it (its text is not modelled). *)
Inductive FileContent : Type :=
  | Pickle (vectorizer : Vectorizer)
  | Json.

(** The model manager: its directories, the files on disk by path, and its
    cache. [joblib.load] gives back the object [joblib.dump] stored, and
    fails on a file that is not a pickle. *)
Record ModelManager : Type := {
  tfidf_dir : string;
  configs_dir : string;
  files : gmap string FileContent;
  _model_cache : gmap string Vectorizer
}.

Definition save_tfidf_model (self : ModelManager) (vectorizer : Vectorizer)
    (model_name : string) : ModelManager * string :=
  let model_path := Path.join (tfidf_dir self) (model_name +:+ "_tfidf.pkl") in
  let config_path :=
    Path.join (configs_dir self) (model_name +:+ "_tfidf_config.json") in
  ({| tfidf_dir := tfidf_dir self;
      configs_dir := configs_dir self;
      files := <[config_path := Json]>
                 (<[model_path := Pickle vectorizer]> (files self));
      _model_cache := _model_cache self |},
   model_path).

Definition load_tfidf_model (self : ModelManager) (model_name : string)
  : ModelManager * option Vectorizer :=
  let model_path := Path.join (tfidf_dir self) (model_name +:+ "_tfidf.pkl") in
  match files self !! model_path with
  | None => (self, None)
  | Some (Pickle vectorizer) =>
      ({| tfidf_dir := tfidf_dir self;
          configs_dir := configs_dir self;
          files := files self;
          _model_cache :=
            <["tfidf_" +:+ model_name := vectorizer]> (_model_cache self) |},
       Some vectorizer)
  | Some Json => (self, None)
  end.

(** The texts the scorer fits a new vectorizer on. *)
Definition sample_texts : list string :=
  [ "software engineer python javascript react node.js aws full-stack development database design cloud architecture agile git ci/cd";
    "data scientist machine learning python r sql tensorflow scikit-learn statistical analysis data visualization business acumen";
    "product manager agile scrum user research product strategy cross-functional leadership analytical skills stakeholder management";
    "marketing manager digital marketing social media content strategy google analytics facebook ads seo budget management roi optimization";
    "sales representative b2b sales crm systems lead generation relationship building communication skills customer service negotiation";
    "ux ui designer user research wireframing prototyping figma sketch mobile design accessibility responsive design user testing";
    "devops engineer aws docker kubernetes terraform jenkins linux monitoring security automation ci/cd cloud architecture";
    "business analyst requirements gathering process improvement sql excel tableau data analysis stakeholder management communication skills" ].

Section Construction.

(** The module flag set by the import of [sentence_transformers]. *)
Variable HUGGINGFACE_AVAILABLE : bool.
(** [set(stopwords.words('english'))] *)
Variable english_stopwords : gset string.
(** [TfidfVectorizer(stop_words='english', ngram_range=(1, 2), ...)] fitted
    on the given texts *)
Variable fit : list string -> Vectorizer.
(** [SentenceTransformer(name)]: the loaded model, or the failure to load *)
Variable SentenceTransformer : string -> result Encoder.

(** [EnhancedATSResumeScorer.__init__], with the shared model manager passed
    in and out. *)
Definition __init__ (model_manager : ModelManager) (model_name : string)
    (use_huggingface : bool) : EnhancedATSResumeScorer * ModelManager :=
  let use_huggingface := use_huggingface && HUGGINGFACE_AVAILABLE in
  let '(model_manager, loaded) := load_tfidf_model model_manager model_name in
  let '(vectorizer, model_manager) :=
    match loaded with
    | Some vectorizer => (vectorizer, model_manager)
    | None =>
        let vectorizer := fit sample_texts in
        (vectorizer, (save_tfidf_model model_manager vectorizer model_name).1)
    end in
  let '(hf_model, use_huggingface) :=
    if use_huggingface then
      match SentenceTransformer "anass1209/resume-job-matcher-all-MiniLM-L6-v2" with
      | Ok model => (Some model, use_huggingface)
      | Raise _ =>
          match SentenceTransformer "sentence-transformers/all-MiniLM-L6-v2" with
          | Ok model => (Some model, use_huggingface)
          | Raise _ => (None, false)
          end
      end
    else (None, use_huggingface) in
  ({| use_huggingface := use_huggingface;
      stop_words := english_stopwords;
      vectorizer := vectorizer;
      hf_model := hf_model |},
   model_manager).

End Construction.

(** ** The recommender (recommender.py) *)

(** [self.keyword_categories], in insertion order. *)
Definition keyword_categories : dict (list string) :=
  [ ("action_verbs",
      [ "achieved"; "developed"; "implemented"; "managed"; "led";
        "created"; "designed"; "optimized"; "improved"; "increased";
        "reduced"; "solved"; "delivered"; "executed"; "coordinated";
        "collaborated"; "analyzed"; "researched"; "innovated"; "transformed" ]);
    ("technical_skills",
      [ "programming"; "software development"; "database management";
        "cloud computing"; "machine learning"; "data analysis";
        "web development"; "mobile development"; "devops"; "agile";
        "scrum"; "version control"; "api development"; "microservices" ]);
    ("soft_skills",
      [ "leadership"; "communication"; "problem solving"; "teamwork";
        "project management"; "time management"; "adaptability";
        "critical thinking"; "creativity"; "attention to detail" ]);
    ("quantifiers",
      [ "increased by"; "reduced by"; "improved by"; "achieved";
        "managed"; "led team of"; "budget of"; "revenue of";
        "saved"; "generated"; "delivered"; "completed" ]) ].

(** [analysis.get(key, default)] read at the type the caller goes on to use.
    The scorer stores every entry at one type; an entry of another type is
    outside what the methods are written for and is reported as
    [TypeError]. *)
Definition get_num (key : string) (default : Q) (analysis : dict value)
  : result Q :=
  match dict_get key analysis with
  | None => Ok default
  | Some (VNum q) => Ok q
  | Some (VBool b) => Ok (if b then 1%Q else 0%Q)
  | Some _ => Raise TypeError
  end.

Definition get_str (key : string) (default : string) (analysis : dict value)
  : result string :=
  match dict_get key analysis with
  | None => Ok default
  | Some (VStr s) => Ok s
  | Some _ => Raise TypeError
  end.

Definition get_list (key : string) (default : list string) (analysis : dict value)
  : result (list string) :=
  match dict_get key analysis with
  | None => Ok default
  | Some (VList l) => Ok l
  | Some _ => Raise TypeError
  end.

Definition _determine_priority (ats_score : Q) : string :=
  if Qltb ats_score 30 then "high"
  else if Qltb ats_score 60 then "medium"
  else "low".

Record SectionInfo : Type := {
  present : bool;
  section_recommendations : list string
}.

(** One [if any(word in resume_text ...)] test of [_analyze_sections]. *)
Definition check_section (resume_text : string) (words : list string)
    (advice : string) : SectionInfo :=
  if List.existsb (fun word => Str.contains word resume_text) words
  then {| present := true; section_recommendations := [] |}
  else {| present := false; section_recommendations := [advice] |}.

Definition _analyze_sections (analysis : dict value) : result (dict SectionInfo) :=
  resume_text ← get_str "resume_text" "" analysis;
  let resume_text := Str.lower resume_text in
  Ok [ ("summary",
          check_section resume_text ["summary"; "objective"; "profile"]
            "Add a professional summary section");
       ("experience",
          check_section resume_text ["experience"; "employment"; "work history"]
            "Add work experience section");
       ("skills",
          check_section resume_text ["skills"; "technical skills"; "competencies"]
            "Add skills section");
       ("education",
          check_section resume_text ["education"; "academic"; "degree"]
            "Add education section") ].

(** The inner [for ... break] loop of [_categorize_keywords] for one
    keyword; the flag is [categorized_flag]. *)
Fixpoint categorize_in (keyword keyword_lower : string)
    (categories : dict (list string)) (categorized : dict (list string))
  : result (dict (list string) * bool) :=
  match categories with
  | [] => Ok (categorized, false)
  | (category, category_keywords) :: rest =>
      if List.existsb (fun cat_kw => Str.contains cat_kw keyword_lower)
                      category_keywords
      then
        categorized ← dict_update category
                         (fun l : list string => (l ++ [keyword])%list) categorized;
        Ok (categorized, true)
      else categorize_in keyword keyword_lower rest categorized
  end.

(** The outer loop of [_categorize_keywords]. *)
Fixpoint categorize_loop (keywords : list string) (categorized : dict (list string))
  : result (dict (list string)) :=
  match keywords with
  | [] => Ok categorized
  | keyword :: rest =>
      let keyword_lower := Str.lower keyword in
      '(categorized, categorized_flag) ←
        categorize_in keyword keyword_lower keyword_categories categorized;
      categorized ←
        (if (categorized_flag : bool) then Ok categorized
         else dict_update "other" (fun l : list string => (l ++ [keyword])%list)
                          categorized);
      categorize_loop rest categorized
  end.

Definition _categorize_keywords (keywords : list string)
  : result (dict (list string)) :=
  categorize_loop keywords
    [ ("technical", []); ("action_verbs", []); ("soft_skills", []);
      ("quantifiers", []); ("other", []) ].

Record KeywordAnalysis : Type := {
  missing_count : nat;
  present_count : nat;
  keyword_recommendations : list string;
  suggested_additions : list string;
  keyword_optimization_tips : list string
}.

(** The loop of [_analyze_keywords] over [missing_by_category.items()]:
    the two lists it appends to. *)
Fixpoint category_advice (missing_by_category : dict (list string))
  : list string * list string :=
  match missing_by_category with
  | [] => ([], [])
  | (category, keywords) :: rest =>
      let '(recs, adds) := category_advice rest in
      match keywords with
      | [] => (recs, adds)
      | _ :: _ =>
          (("Add " +:+ category +:+ " keywords: "
              +:+ Str.join ", " (take 3 keywords)) :: recs,
           (take 5 keywords ++ adds)%list)
      end
  end.

Definition _analyze_keywords (missing_keywords resume_keywords : list string)
  : result KeywordAnalysis :=
  missing_by_category ← _categorize_keywords missing_keywords;
  let '(recs, adds) := category_advice missing_by_category in
  let tips :=
    ((if (length resume_keywords <? 10)%nat
      then ["Increase keyword density by including more relevant technical terms"]
      else []) ++
     (if (10 <? length missing_keywords)%nat
      then ["Focus on adding the most important missing keywords first"]
      else []))%list in
  Ok {| missing_count := length missing_keywords;
        present_count := length resume_keywords;
        keyword_recommendations := recs;
        suggested_additions := adds;
        keyword_optimization_tips := tips |}.

Record FormatAnalysis : Type := {
  format_recommendations : list string;
  warnings : list string;
  tips : list string
}.

Definition tab : string := String (ascii_of_N 9) EmptyString.

Definition _analyze_format (analysis : dict value) : result FormatAnalysis :=
  resume_text ← get_str "resume_text" "" analysis;
  word_count ← get_num "resume_word_count" 0 analysis;
  let warnings :=
    if Qltb word_count 200
    then ["Resume is too short - consider adding more detail"]
    else if Qltb 800 word_count
    then ["Resume is too long - consider condensing content"]
    else [] in
  let tips :=
    ((if Str.contains "  " resume_text
      then ["Remove extra spaces for better ATS parsing"] else []) ++
     (if Str.contains tab resume_text
      then ["Replace tabs with spaces for better ATS compatibility"] else []))%list in
  Ok {| format_recommendations :=
          [ "Use standard section headers (Experience, Education, Skills)";
            "Use bullet points for easy scanning";
            "Keep formatting simple and consistent";
            "Use standard fonts (Arial, Calibri, Times New Roman)" ];
        warnings := warnings;
        tips := tips |}.

Record ContentAnalysis : Type := {
  content_recommendations : list string;
  strengths : list string;
  improvements : list string
}.

Definition _analyze_content (analysis : dict value) : result ContentAnalysis :=
  ats_score ← get_num "ats_score" 0 analysis;
  let '(improvements, strengths) :=
    if Qltb ats_score 50
    then ([ "Rewrite job descriptions to match the target role";
            "Include specific technologies and tools mentioned in the job posting";
            "Quantify achievements with numbers and metrics" ], [])
    else if Qltb ats_score 70
    then ([ "Fine-tune keyword usage to better match job requirements";
            "Add more specific technical details";
            "Include more quantifiable achievements" ], [])
    else ([], ["Good keyword alignment with job requirements"]) in
  Ok {| content_recommendations :=
          [ "Use action verbs to start bullet points";
            "Include specific technologies and tools";
            "Quantify achievements with numbers";
            "Tailor content to the specific job posting";
            "Use industry-specific terminology" ];
        strengths := strengths;
        improvements := improvements |}.

Record AtsAnalysis : Type := {
  ats_recommendations : list string;
  critical_issues : list string;
  ats_optimization_tips : list string
}.

Definition _analyze_ats_optimization (analysis : dict value) : result AtsAnalysis :=
  resume_text ← get_str "resume_text" "" analysis;
  let issues :=
    ((if List.existsb (fun char => Str.contains char resume_text) [tab; "  "]
      then ["Remove tabs and extra spaces"] else []) ++
     (if Re.has_non_ascii resume_text
      then ["Remove special characters and symbols"] else []))%list in
  Ok {| ats_recommendations :=
          [ "Use standard section headers";
            "Avoid tables and complex formatting";
            "Use simple bullet points";
            "Include relevant keywords naturally";
            "Save as PDF for best compatibility" ];
        critical_issues := issues;
        ats_optimization_tips :=
          [ "Test your resume with ATS checkers";
            "Use keywords from the job description";
            "Keep formatting simple and clean";
            "Use standard fonts and sizes";
            "Avoid graphics and images" ] |}.

Definition _calculate_recommendation_score (priority : string)
    (sections : dict SectionInfo) (keywords : KeywordAnalysis) : Z :=
  let score := 100%Z in
  let score :=
    if String.eqb priority "high" then (score - 30)%Z
    else if String.eqb priority "medium" then (score - 15)%Z
    else score in
  let missing_sections :=
    length (List.filter (fun section => negb (present section.2)) sections) in
  let score := (score - Z.of_nat missing_sections * 10)%Z in
  let score :=
    if (10 <? missing_count keywords)%nat then (score - 20)%Z
    else if (5 <? missing_count keywords)%nat then (score - 10)%Z
    else score in
  Z.max 0 (Z.min 100 score).

Record Recommendations : Type := {
  priority : string;
  sections : dict SectionInfo;
  keywords : KeywordAnalysis;
  format : FormatAnalysis;
  content : ContentAnalysis;
  ats_optimization : AtsAnalysis;
  overall_score : Z
}.

Definition generate_recommendations (analysis : dict value)
  : result Recommendations :=
  ats_score ← get_num "ats_score" 0 analysis;
  missing_keywords ← get_list "missing_keywords" [] analysis;
  resume_keywords ← get_list "resume_keywords" [] analysis;
  let priority := _determine_priority ats_score in
  sections ← _analyze_sections analysis;
  keywords ← _analyze_keywords missing_keywords resume_keywords;
  format ← _analyze_format analysis;
  content ← _analyze_content analysis;
  ats_optimization ← _analyze_ats_optimization analysis;
  Ok {| priority := priority;
        sections := sections;
        keywords := keywords;
        format := format;
        content := content;
        ats_optimization := ats_optimization;
        overall_score :=
          _calculate_recommendation_score priority sections keywords |}.

(** [get_priority_recommendations], on the recommendations that
    [generate_recommendations] builds (every key is present). *)
Definition get_priority_recommendations (recommendations : Recommendations)
    (limit : Z) : list string :=
  let ats_issues := critical_issues (ats_optimization recommendations) in
  let priority_recs := slice_to limit ats_issues in
  let priority_recs :=
    fold_left
      (fun (priority_recs : list string) (entry : string * SectionInfo) =>
         if negb (present entry.2) && (Z.of_nat (length priority_recs) <? limit)%Z
         then (priority_recs ++ ["Add " +:+ entry.1 +:+ " section"])%list
         else priority_recs)
      (sections recommendations) priority_recs in
  let keyword_recs := keyword_recommendations (keywords recommendations) in
  let priority_recs :=
    (priority_recs
       ++ slice_to (limit - Z.of_nat (length priority_recs)) keyword_recs)%list in
  slice_to limit priority_recs.

(** ** Readers of the analysis (report_generator.py) *)

Record ScoreInterpretation : Type := {
  level : string;
  description : string;
  recommendation : string
}.

(** [x >= y] on numbers *)
Definition Qgeb (x y : Q) : bool := Qle_bool y x.

Definition _get_score_interpretation (score : Q) : ScoreInterpretation :=
  if Qgeb score 85 then
    {| level := "Excellent";
       description := "Your resume is well-optimized for ATS systems and should pass most screening processes.";
       recommendation := "Maintain current optimization level and focus on interview preparation." |}
  else if Qgeb score 70 then
    {| level := "Good";
       description := "Your resume shows good ATS compatibility with room for minor improvements.";
       recommendation := "Make small adjustments to keywords and formatting for better results." |}
  else if Qgeb score 50 then
    {| level := "Moderate";
       description := "Your resume has moderate ATS compatibility but needs significant improvements.";
       recommendation := "Focus on adding missing keywords and improving content structure." |}
  else if Qgeb score 30 then
    {| level := "Low";
       description := "Your resume has low ATS compatibility and requires substantial improvements.";
       recommendation := "Consider rewriting key sections and adding more relevant keywords." |}
  else
    {| level := "Very Low";
       description := "Your resume has very low ATS compatibility and may not pass initial screening.";
       recommendation := "Consider a complete resume rewrite with ATS optimization in mind." |}.

Definition _get_score_color (score : Q) : string :=
  if Qgeb score 85 then "#27ae60"
  else if Qgeb score 70 then "#f39c12"
  else if Qgeb score 50 then "#e67e22"
  else if Qgeb score 30 then "#e74c3c"
  else "#c0392b".

(** [range(0, stop, step)] for a positive [step] *)
Definition range_step (stop step : nat) : list nat :=
  List.map (fun k => (k * step)%nat) (seq 0 ((stop + step - 1) / step)).

(** [l[i:j]] for indices within [0 <= i <= j] *)
Definition slice {A : Type} (i j : nat) (l : list A) : list A :=
  take (j - i) (drop i l).

(** The loop of [_create_keyword_analysis] that groups the missing keywords
    in rows of three, the last row filled up with empty strings. *)
Definition keyword_rows (missing_keywords : list string) : list (list string) :=
  let keywords_per_row := 3%nat in
  List.map
    (fun i =>
       let row_keywords := slice i (i + keywords_per_row) missing_keywords in
       (row_keywords
          ++ replicate (keywords_per_row - length row_keywords) EmptyString)%list)
    (range_step (length missing_keywords) keywords_per_row).

(** ** Concrete library behaviour for worked examples *)

Module Sample.

(** [word_tokenize] on lower-case words separated by blanks: the words. *)
Fixpoint split_from (word : string) (s : string) : list string :=
  match s with
  | EmptyString => if Str.is_empty word then [] else [word]
  | String c rest =>
      if Str.isspace c
      then if Str.is_empty word then split_from EmptyString rest
           else word :: split_from EmptyString rest
      else split_from (word +:+ String c EmptyString) rest
  end.

Definition split_words (s : string) : list string := split_from EmptyString s.

(** Row normalisation, exact on rows with at most one non-zero entry: that
    entry becomes 1 or -1. *)
Definition normalize_axis (row : list Q) : list Q :=
  List.map (fun x => match Qcompare x 0 with
                     | Lt => (-1)%Q
                     | Eq => 0%Q
                     | Gt => 1%Q
                     end) row.

(** A fitted vectorizer that knows no term of any text: every row is zero. *)
Definition blind_vectorizer (text : string) : result (list Q) := Ok [0%Q; 0%Q].

(** An embedding model that places texts led by [r] and all other texts on
    opposite sides of one axis. *)
Definition opposed_encoder (text : string) : result (list Q) :=
  if Str.startswith "r" text then Ok [1%Q; 0%Q] else Ok [(-1)%Q; 0%Q].

(** A few of the English stopwords. *)
Definition english : gset string :=
  list_to_set ["the"; "and"; "with"; "for"; "are"; "was"].

Definition lexical_scorer : EnhancedATSResumeScorer :=
  {| use_huggingface := false;
     stop_words := english;
     vectorizer := blind_vectorizer;
     hf_model := None |}.

Definition hybrid_scorer : EnhancedATSResumeScorer :=
  {| use_huggingface := true;
     stop_words := english;
     vectorizer := blind_vectorizer;
     hf_model := Some opposed_encoder |}.

(** A job description of sixteen distinct keywords and a resume that has
    the first fifteen. *)
Definition job_sixteen : string :=
  "python django flask docker kubernetes terraform jenkins linux "
  +:+ "redis kafka spark hadoop airflow pandas numpy pytorch".

Definition resume_fifteen : string :=
  "python django flask docker kubernetes terraform jenkins linux "
  +:+ "redis kafka spark hadoop airflow pandas numpy".

(** Recommendations with one issue, one absent section and one piece of
    keyword advice. *)
Definition recommendations : Recommendations :=
  {| priority := "low";
     sections :=
       [ ("summary", {| present := true; section_recommendations := [] |});
         ("skills", {| present := false;
                       section_recommendations := ["Add skills section"] |}) ];
     keywords :=
       {| missing_count := 1;
          present_count := 12;
          keyword_recommendations := ["Add other keywords: python"];
          suggested_additions := ["python"];
          keyword_optimization_tips := [] |};
     format := {| format_recommendations := []; warnings := []; tips := [] |};
     content :=
       {| content_recommendations := []; strengths := []; improvements := [] |};
     ats_optimization :=
       {| ats_recommendations := [];
          critical_issues := ["Remove tabs and extra spaces"];
          ats_optimization_tips := [] |};
     overall_score := 90 |}.

End Sample.

(** ** Vocabulary of the statements *)

(** Position of the first occurrence of [w] in [l] ([length l] if none). *)
Fixpoint first_index (w : string) (l : list string) : nat :=
  match l with
  | [] => 0%nat
  | x :: l' => if String.eqb x w then 0%nat else S (first_index w l')
  end.

(** Number of occurrences of [w] in [l]. *)
Fixpoint frequency (w : string) (l : list string) : nat :=
  match l with
  | [] => 0%nat
  | x :: l' => if String.eqb x w then S (frequency w l') else frequency w l'
  end.

(** The ranking order on counted keywords: higher count first, and among
    equal counts the keyword that occurs first in [keywords]. *)
Definition ranks_before (keywords : list string) (a b : string * nat) : Prop :=
  (b.2 < a.2)%nat \/
  (a.2 = b.2 /\ (first_index a.1 keywords < first_index b.1 keywords)%nat).

(** The tie-break alone. *)
Definition occurs_before (keywords : list string) (a b : string) : Prop :=
  (first_index a keywords < first_index b keywords)%nat.

(** The order a stable descending sort produces from a tie-break [T]. *)
Definition by_count_then (T : relation (string * nat)) : relation (string * nat) :=
  fun a b => (b.2 < a.2)%nat \/ (a.2 = b.2 /\ T a b).

(** The semantic engine is available: its use is switched on and a model is
    loaded (the test of [calculate_hybrid_similarity]). *)
Definition semantic_available (self : EnhancedATSResumeScorer) : bool :=
  use_huggingface self && bool_decide (is_Some (hf_model self)).

(** The four canonical sections, each reported absent with its advice. *)
Definition sections_all_absent : dict SectionInfo :=
  [ ("summary",
       {| present := false;
          section_recommendations := ["Add a professional summary section"] |});
    ("experience",
       {| present := false;
          section_recommendations := ["Add work experience section"] |});
    ("skills",
       {| present := false;
          section_recommendations := ["Add skills section"] |});
    ("education",
       {| present := false;
          section_recommendations := ["Add education section"] |}) ].

(** The category a keyword belongs to: the first category of
    [keyword_categories] one of whose entries the lower-cased keyword
    contains, and [other] when there is none. *)
Fixpoint first_category_in (keyword_lower : string) (categories : dict (list string))
  : option string :=
  match categories with
  | [] => None
  | (category, category_keywords) :: rest =>
      if List.existsb (fun cat_kw => Str.contains cat_kw keyword_lower)
                      category_keywords
      then Some category
      else first_category_in keyword_lower rest
  end.

Definition category_of (keyword : string) : string :=
  default "other" (first_category_in (Str.lower keyword) keyword_categories).

Definition in_category (category : string) (keyword : string) : bool :=
  String.eqb (category_of keyword) category.

(** The categorisation the recommender is meant to produce: every keyword
    in the list of its one category, in order. *)
Definition categorized_by (keywords : list string) : dict (list string) :=
  [ ("technical", []);
    ("action_verbs", List.filter (in_category "action_verbs") keywords);
    ("soft_skills", List.filter (in_category "soft_skills") keywords);
    ("quantifiers", List.filter (in_category "quantifiers") keywords);
    ("other", List.filter (in_category "other") keywords) ].

(** The missing keywords as the specification words them: the job keywords
    absent from the resume keywords, in the job's ranking order (descending
    frequency), cut to 10. *)
Definition missing_by_frequency (resume_keywords job_keywords : list string)
  : list string :=
  take 10 (List.filter (fun w => bool_decide (w ∉ resume_keywords)) job_keywords).

(** A character of normalised text: a lower-case ASCII letter, a digit or
    a space. *)
Definition norm_char (c : ascii) : bool :=
  Str.is_az c || Str.is_09 c || Ascii.eqb c " "%char.

(** Normalised text: only such characters, no space at either end and no
    two spaces in a row. *)
Definition normalized (s : string) : bool :=
  Str.forallb norm_char s
  && negb (Str.startswith " " s)
  && negb (Path.endswith_char " " s)
  && negb (Str.contains "  " s).

(** Whitespace occurs only as single spaces ([after_space]: the character
    before was one). *)
Fixpoint single_spaced (after_space : bool) (s : string) : bool :=
  match s with
  | EmptyString => true
  | String c rest =>
      if Str.isspace c
      then Ascii.eqb c " "%char && negb after_space && single_spaced true rest
      else single_spaced false rest
  end.

Definition starts_with_space (s : string) : bool :=
  match s with
  | EmptyString => false
  | String c _ => Str.isspace c
  end.

Fixpoint ends_with_space (s : string) : bool :=
  match s with
  | EmptyString => false
  | String c EmptyString => Str.isspace c
  | String _ rest => ends_with_space rest
  end.

(** The "Add ... section" entries of [get_priority_recommendations], one for
    each section that is not present. *)
Definition section_additions (sections : dict SectionInfo) : list string :=
  List.map (fun entry : string * SectionInfo => "Add " +:+ entry.1 +:+ " section")
           (List.filter (fun entry : string * SectionInfo => negb (present entry.2))
                        sections).

(** The colour the report gives a level, and the opening suggestion of the
    scorer that goes with it. *)
Definition color_of_level (level : string) : string :=
  if String.eqb level "Excellent" then "#27ae60"
  else if String.eqb level "Good" then "#f39c12"
  else if String.eqb level "Moderate" then "#e67e22"
  else if String.eqb level "Low" then "#e74c3c"
  else "#c0392b".

Definition suggestion_of_level (level : string) : string :=
  if String.eqb level "Excellent" || String.eqb level "Good"
  then "✅ Excellent: Resume is very well-aligned"
  else if String.eqb level "Moderate"
  then "🟢 Good: Resume is well-aligned but could improve"
  else if String.eqb level "Low"
  then "🟡 Moderate: Resume needs improvement"
  else "🔴 Critical: Resume needs significant improvement".

(** * Properties *)

Open Scope list_scope.

(** ** Text normalisation *)

Section Normalizer.

Lemma space_isspace c : Ascii.eqb c " "%char = true -> Str.isspace c = true.
Proof. intros H. apply Ascii.eqb_eq in H. now subst c. Qed.

(** On any one character the substitution of the code and the replacement
    of the specification agree, or both leave whitespace. *)
Lemma sub_char_agree c :
  let a := Re.sub_non_alnum_char c in
  let b := if NormalizerSpec.in_class c then c else " "%char in
  a = b \/ (Str.isspace a = true /\ Str.isspace b = true).
Proof.
  unfold Re.sub_non_alnum_char, Re.keeps, NormalizerSpec.in_class.
  destruct (Str.is_az c || Str.is_AZ c || Str.is_09 c) eqn:Hcls; simpl.
  - now left.
  - destruct (Str.isspace c) eqn:Hsp, (Ascii.eqb c " "%char) eqn:Heq;
      auto using space_isspace.
Qed.

(** Collapsing whitespace does not see which whitespace character it is
    given. *)
Lemma sub_ws_from_agree (f g : ascii -> ascii) :
  (forall c, f c = g c \/ (Str.isspace (f c) = true /\ Str.isspace (g c) = true)) ->
  forall s in_run,
    Re.sub_ws_from in_run (Str.map f s) = Re.sub_ws_from in_run (Str.map g s).
Proof.
  intros Hfg s. induction s as [|c s IH]; intros in_run; simpl; [reflexivity|].
  destruct (Hfg c) as [Heq | [Hf Hg]].
  - rewrite Heq. destruct (Str.isspace (g c)), in_run; now rewrite IH.
  - rewrite Hf, Hg. destruct in_run; now rewrite IH.
Qed.

(** C6. [preprocess_text] computes exactly the normalisation the
    specification describes: the lower-cased text with every character
    outside [[a-zA-Z0-9 ]] replaced by a space, whitespace runs collapsed to
    one space, and the ends trimmed. It is a total function, and [None] and
    the empty string both give the empty string. *)
Theorem preprocess_text_normalizes :
  (forall text : option string,
      preprocess_text text = NormalizerSpec.normalize text)
  /\ preprocess_text None = ""
  /\ preprocess_text (Some "") = "".
Proof.
  split; [|split; reflexivity].
  intros [[|c s]|]; try reflexivity.
  unfold preprocess_text, NormalizerSpec.normalize, NormalizerSpec.trim,
    NormalizerSpec.collapse_whitespace, NormalizerSpec.replace_outside_class,
    Re.sub_non_alnum, Re.sub_ws.
  f_equal. apply sub_ws_from_agree. intros a. apply sub_char_agree.
Qed.

End Normalizer.

(** ** Keyword ranking *)

Section Ranking.

Lemma first_index_lt w l : w ∈ l -> (first_index w l < length l)%nat.
Proof.
  induction l as [|x l IH]; simpl; [by intros ?%elem_of_nil|].
  intros Hin. destruct (String.eqb_spec x w) as [->|Hne]; [lia|].
  apply elem_of_cons in Hin as [->|Hin]; [done|]. specialize (IH Hin). lia.
Qed.

Lemma first_index_app_l w l l' :
  w ∈ l -> first_index w (l ++ l') = first_index w l.
Proof.
  induction l as [|x l IH]; simpl; [by intros ?%elem_of_nil|].
  intros Hin. destruct (String.eqb_spec x w) as [->|Hne]; [done|].
  apply elem_of_cons in Hin as [->|Hin]; [done|]. by rewrite IH.
Qed.

Lemma first_index_new w l :
  w ∉ l -> first_index w (l ++ [w]) = length l.
Proof.
  induction l as [|x l IH]; simpl; intros Hnin.
  - by rewrite String.eqb_refl.
  - apply not_elem_of_cons in Hnin as [Hne Hnin].
    destruct (String.eqb_spec x w) as [->|_]; [done|]. by rewrite IH.
Qed.

Lemma frequency_app w l l' :
  frequency w (l ++ l') = (frequency w l + frequency w l')%nat.
Proof.
  induction l as [|x l IH]; simpl; [done|].
  destruct (String.eqb x w); simpl; by rewrite IH.
Qed.

Lemma frequency_absent w l : w ∉ l -> frequency w l = 0%nat.
Proof.
  induction l as [|x l IH]; simpl; [done|].
  intros [Hne Hnin]%not_elem_of_cons.
  destruct (String.eqb_spec x w) as [->|_]; [done|]. by apply IH.
Qed.

(** What [dict_incr] does to the list of entries. *)
Lemma dict_incr_cases x (d : dict nat) :
  ((x ∉ d.*1) ∧ dict_incr x d = d ++ [(x, 1%nat)]) ∨
  (∃ d1 n d2, d = d1 ++ (x, n) :: d2 ∧ (x ∉ d1.*1) ∧
                   dict_incr x d = d1 ++ (x, S n) :: d2).
Proof.
  induction d as [|[k n] d IH]; simpl.
  - left. split; [apply not_elem_of_nil | done].
  - destruct (String.eqb_spec k x) as [->|Hne].
    + right. exists [], n, d. split_and!; [done | apply not_elem_of_nil | done].
    + destruct IH as [[Hnin ->] | (d1 & m & d2 & -> & Hnin & ->)].
      * left. split; [|done]. apply not_elem_of_cons. by split.
      * right. exists ((k, n) :: d1), m, d2. split_and!; [done | | done].
        simpl. apply not_elem_of_cons. by split.
Qed.

Lemma count_keywords_snoc l x :
  count_keywords (l ++ [x]) = dict_incr x (count_keywords l).
Proof. unfold count_keywords. by rewrite fold_left_app. Qed.


Lemma StronglySorted_local {A} (R R' : relation A) (l : list A) :
  (forall a b, a ∈ l -> b ∈ l -> R a b -> R' a b) ->
  StronglySorted R l -> StronglySorted R' l.
Proof.
  intros Himp Hs. induction Hs as [|a l Hs IH Hall]; constructor.
  - apply IH. intros x y Hx Hy. apply Himp; by apply elem_of_cons; right.
  - apply Forall_forall. intros b Hb.
    apply Himp; [apply elem_of_cons; by left | apply elem_of_cons; by right |].
    rewrite Forall_forall in Hall. by apply Hall.
Qed.

Lemma StronglySorted_NoDup {A} (R : relation A) (l : list A) :
  (forall a, ~ R a a) -> StronglySorted R l -> NoDup l.
Proof.
  intros Hirr Hs. induction Hs as [|a l Hs IH Hall]; constructor; [|done].
  intros Hin. rewrite Forall_forall in Hall. by apply (Hirr a), Hall.
Qed.

Lemma occurs_before_irrefl l a : ~ occurs_before l a a.
Proof. unfold occurs_before. lia. Qed.

Lemma occurs_before_snoc l x a b :
  a ∈ l -> b ∈ l -> occurs_before l a b -> occurs_before (l ++ [x]) a b.
Proof.
  unfold occurs_before. intros Ha Hb. by rewrite !first_index_app_l.
Qed.

Lemma frequency_snoc_other w x l :
  w <> x -> frequency w (l ++ [x]) = frequency w l.
Proof.
  intros Hne. rewrite frequency_app. simpl.
  destruct (String.eqb_spec x w); [congruence | lia].
Qed.

Lemma frequency_snoc_same x l :
  frequency x (l ++ [x]) = S (frequency x l).
Proof. rewrite frequency_app. simpl. rewrite String.eqb_refl. lia. Qed.

(** The counting loop lists each distinct keyword once, with its number of
    occurrences, in order of first occurrence. *)
Lemma count_keywords_spec l :
  StronglySorted (occurs_before l) (count_keywords l).*1 ∧
  (∀ w n, (w, n) ∈ count_keywords l ↔ w ∈ l ∧ n = frequency w l).
Proof.
  induction l as [|x l [IHk IHe]] using rev_ind.
  - split; [constructor|]. intros w n. cbn. split.
    + by intros ?%elem_of_nil.
    + by intros [?%elem_of_nil _].
  - rewrite count_keywords_snoc.
    set (d := count_keywords l) in *.
    assert (Hkeys : ∀ k, k ∈ d.*1 → k ∈ l).
    { intros k ([k' n] & -> & Hin)%list_elem_of_fmap. by apply IHe in Hin as [? _]. }
    assert (Hnd : NoDup d.*1).
    { eapply StronglySorted_NoDup; [apply occurs_before_irrefl | done]. }
    destruct (dict_incr_cases x d) as [[Hnin ->] | (d1 & n0 & d2 & Hd & Hnin & ->)].
    + assert (Hxl : x ∉ l).
      { intros Hxl. apply Hnin, list_elem_of_fmap.
        exists (x, frequency x l). split; [done|]. by apply IHe. }
      split.
      * rewrite fmap_app. apply StronglySorted_app_2.
        -- intros a b Ha ->%list_elem_of_singleton. unfold occurs_before.
           rewrite first_index_new by done.
           rewrite first_index_app_l by auto. apply first_index_lt; auto.
        -- eapply StronglySorted_local; [|done].
           intros a b Ha Hb. apply occurs_before_snoc; auto.
        -- repeat constructor.
      * intros w n. rewrite !elem_of_app, !list_elem_of_singleton. split.
        -- intros [Hin | [= -> ->]].
           ++ apply IHe in Hin as [Hw ->]. split; [by left|].
              rewrite frequency_snoc_other; [done | congruence].
           ++ split; [by right|].
              rewrite frequency_snoc_same, frequency_absent; done.
        -- intros [[Hw | ->] ->].
           ++ left. apply IHe. split; [done|].
              rewrite frequency_snoc_other; [done | congruence].
           ++ right. by rewrite frequency_snoc_same, frequency_absent.
    + assert (Hfst : (d1 ++ (x, S n0) :: d2).*1 = d.*1).
      { rewrite Hd, !fmap_app. done. }
      assert (Hx : x ∈ l ∧ n0 = frequency x l).
      { apply IHe. rewrite Hd. apply elem_of_app. right. apply elem_of_cons. by left. }
      destruct Hx as [Hxl ->].
      assert (Hnin2 : x ∉ d2.*1).
      { rewrite Hd, fmap_app in Hnd. apply NoDup_app in Hnd as (_ & _ & Hnd).
        simpl in Hnd. by apply NoDup_cons in Hnd as [? _]. }
      assert (Hne1 : ∀ w n, (w, n) ∈ d1 → w ≠ x).
      { intros w n Hin ->. apply Hnin, list_elem_of_fmap. by exists (x, n). }
      assert (Hne2 : ∀ w n, (w, n) ∈ d2 → w ≠ x).
      { intros w n Hin ->. apply Hnin2, list_elem_of_fmap. by exists (x, n). }
      split.
      * rewrite Hfst. eapply StronglySorted_local; [|done].
        intros a b Ha Hb. apply occurs_before_snoc; auto.
      * intros w n. rewrite (elem_of_app d1), (elem_of_cons d2). split.
        -- intros [Hin | [[= -> ->] | Hin]].
           ++ pose proof (Hne1 _ _ Hin).
              assert ((w, n) ∈ d) as [Hw ->]%IHe
                by (rewrite Hd; apply elem_of_app; by left).
              split; [apply elem_of_app; by left|].
              by rewrite frequency_snoc_other.
           ++ split; [apply elem_of_app; by left|].
              by rewrite frequency_snoc_same.
           ++ pose proof (Hne2 _ _ Hin).
              assert ((w, n) ∈ d) as [Hw ->]%IHe
                by (rewrite Hd; apply elem_of_app; right; apply elem_of_cons; by right).
              split; [apply elem_of_app; by left|].
              by rewrite frequency_snoc_other.
        -- intros [Hw ->]. destruct (decide (w = x)) as [->|Hne].
           ++ right; left. by rewrite frequency_snoc_same.
           ++ apply elem_of_app in Hw as [Hw | ->%list_elem_of_singleton]; [|done].
              rewrite frequency_snoc_other by done.
              assert ((w, frequency w l) ∈ d) as Hin by (by apply IHe).
              rewrite Hd in Hin.
              apply elem_of_app in Hin as [Hin | Hin]; [by left|].
              apply elem_of_cons in Hin as [[= ? _] | Hin]; [done|]. by right; right.
Qed.

Lemma StronglySorted_fmap_inv {A B} (f : A -> B) (R : relation B) (l : list A) :
  StronglySorted R (f <$> l) -> StronglySorted (fun a b => R (f a) (f b)) l.
Proof.
  induction l as [|a l IH]; simpl; intros Hs; [constructor|].
  apply StronglySorted_inv in Hs as [Hs Hall]. constructor; [by apply IH|].
  rewrite Forall_fmap in Hall. done.
Qed.

Lemma insert_desc_perm x l : insert_desc x l ≡ₚ x :: l.
Proof.
  induction l as [|y l IH]; simpl; [done|].
  destruct (x.2 <? y.2)%nat; [|done]. rewrite IH. apply Permutation_swap.
Qed.

Lemma sorted_desc_perm l : sorted_desc l ≡ₚ l.
Proof.
  induction l as [|x l IH]; simpl; [done|].
  unfold sorted_desc in *. simpl. rewrite insert_desc_perm. by constructor.
Qed.

Lemma insert_desc_sorted (T : relation (string * nat)) x s :
  StronglySorted (by_count_then T) s ->
  Forall (T x) s ->
  StronglySorted (by_count_then T) (insert_desc x s).
Proof.
  induction s as [|y s IH]; simpl; intros Hs HT.
  - repeat constructor.
  - apply StronglySorted_inv in Hs as [Hs Hy].
    apply Forall_cons in HT as [HTy HTs].
    destruct (Nat.ltb_spec x.2 y.2) as [Hlt | Hge].
    + constructor; [by apply IH|].
      rewrite insert_desc_perm. constructor; [by left | done].
    + assert (Hxy : by_count_then T x y).
      { destruct (decide (x.2 = y.2)); [right; by split | left; lia]. }
      constructor; [by constructor|]. constructor; [done|].
      rewrite Forall_forall in Hy, HTs |- *. intros z Hz.
      destruct (Hy z Hz) as [Hlt | [Heq _]].
      * left. lia.
      * destruct (decide (x.2 = z.2)); [right; split; auto | left; lia].
Qed.

Lemma sorted_desc_sorted (T : relation (string * nat)) l :
  StronglySorted T l -> StronglySorted (by_count_then T) (sorted_desc l).
Proof.
  induction 1 as [|x l Hs IH Hall]; [constructor|].
  change (sorted_desc (x :: l)) with (insert_desc x (sorted_desc l)).
  apply insert_desc_sorted; [done|]. by rewrite sorted_desc_perm.
Qed.

(** The ranked list of [extract_keywords], before truncation. *)
Lemma ranked_keywords_spec keywords :
  let ranked := sorted_desc (count_keywords keywords) in
  NoDup ranked.*1 ∧
  (∀ w n, (w, n) ∈ ranked ↔ w ∈ keywords ∧ n = frequency w keywords) ∧
  StronglySorted (ranks_before keywords) ranked.
Proof.
  intros ranked. destruct (count_keywords_spec keywords) as [Hk He].
  assert (Hp : ranked ≡ₚ count_keywords keywords) by apply sorted_desc_perm.
  split_and!.
  - rewrite Hp. eapply StronglySorted_NoDup; [apply occurs_before_irrefl | done].
  - intros w n. rewrite Hp. apply He.
  - apply (sorted_desc_sorted
             (fun a b => occurs_before keywords a.1 b.1)).
    by apply StronglySorted_fmap_inv.
Qed.

End Ranking.

Section ExtractKeywords.

Variable word_tokenize : string -> list string.
Variable self : EnhancedATSResumeScorer.

Lemma is_keyword_true token :
  is_keyword self token = true <->
  (token ∉ stop_words self) ∧ (2 < String.length token)%nat ∧
  Str.isalpha token = true.
Proof.
  unfold is_keyword. rewrite !andb_true_iff, bool_decide_eq_true, Nat.ltb_lt.
  tauto.
Qed.

(** C5. On a non-empty text and a count [top_k >= 0], [extract_keywords]
    tokenizes the lower-cased text, keeps exactly the tokens that are not
    stopwords, are longer than 2 characters and are purely alphabetic, and
    returns the first [top_k] entries of the ranking [ranked]: each kept
    token once, with its number of occurrences, ordered by descending count
    and, among equal counts, by first occurrence. On [None] and on the empty
    string it returns the empty list. *)
Theorem extract_keywords_ranking (text : string) (top_k : Z) :
  (0 <= top_k)%Z ->
  text <> "" ->
  let tokens := word_tokenize (Str.lower text) in
  let keywords := List.filter (is_keyword self) tokens in
  (∀ w, w ∈ keywords ↔
        w ∈ tokens ∧ (w ∉ stop_words self) ∧ (2 < String.length w)%nat ∧
        Str.isalpha w = true) ∧
  (∃ ranked : list (string * nat),
      extract_keywords word_tokenize self (Some text) top_k
        = take (Z.to_nat top_k) ranked.*1 ∧
      NoDup ranked.*1 ∧
      (∀ w n, (w, n) ∈ ranked ↔ w ∈ keywords ∧ n = frequency w keywords) ∧
      StronglySorted (ranks_before keywords) ranked) ∧
  extract_keywords word_tokenize self (Some "") top_k = [] ∧
  extract_keywords word_tokenize self None top_k = [].
Proof.
  intros Hk Htext tokens keywords. split_and!; [| |done|done].
  - intros w. unfold keywords.
    rewrite list_elem_of_In, filter_In, <- list_elem_of_In, is_keyword_true. tauto.
  - exists (sorted_desc (count_keywords keywords)).
    split; [|apply ranked_keywords_spec].
    destruct text as [|c s]; [done|].
    unfold extract_keywords, slice_to.
    destruct (Z.leb_spec 0 top_k) as [_|?]; [|lia].
    by rewrite fmap_take.
Qed.

End ExtractKeywords.

(** ** Similarity and score *)

Section Scoring.

Variable word_tokenize : string -> list string.
Variable l2_normalize : list Q -> list Q.
Variable set_to_list : gset string -> list string.
Variable self : EnhancedATSResumeScorer.

Local Abbreviation tfidf := (calculate_tfidf_similarity l2_normalize self).
Local Abbreviation huggingface := (calculate_huggingface_similarity l2_normalize self).
Local Abbreviation hybrid := (calculate_hybrid_similarity l2_normalize self).
Local Abbreviation keywords_of := (fun text => extract_keywords word_tokenize self text 20).
Local Abbreviation missing := (find_missing_keywords word_tokenize set_to_list self).
Local Abbreviation analyse :=
  (calculate_ats_score word_tokenize l2_normalize set_to_list self).

Lemma Qmult_comm_eq (x y : Q) : Qmult x y = Qmult y x.
Proof.
  destruct x as [a b], y as [c d]. unfold Qmult. simpl.
  by rewrite Z.mul_comm, Pos.mul_comm.
Qed.

Lemma dot_comm (u v : list Q) : dot u v = dot v u.
Proof.
  unfold dot. revert v. induction u as [|x u IH]; intros [|y v]; simpl; try done.
  by rewrite IH, Qmult_comm_eq.
Qed.

Lemma cosine_similarity_comm (x y : list Q) :
  cosine_similarity l2_normalize x y = cosine_similarity l2_normalize y x.
Proof.
  unfold cosine_similarity.
  destruct (decide (length x = length y)), (decide (length y = length x));
    try congruence.
  by rewrite dot_comm.
Qed.

(** C9. The lexical (TF-IDF) similarity is symmetric in its two texts: the
    two results are equal, not merely close. *)
Theorem tfidf_similarity_symmetric (text_a text_b : option string) :
  calculate_tfidf_similarity l2_normalize self text_a text_b
  = calculate_tfidf_similarity l2_normalize self text_b text_a.
Proof.
  unfold calculate_tfidf_similarity.
  destruct (Str.is_empty (preprocess_text text_a)),
           (Str.is_empty (preprocess_text text_b)); simpl; try done.
  destruct (vectorizer self (preprocess_text text_a)) as [va|ea],
           (vectorizer self (preprocess_text text_b)) as [vb|eb]; simpl; try done.
  by rewrite cosine_similarity_comm.
Qed.

Lemma truediv_ok (a b : Q) : ¬ (b == 0)%Q → truediv a b = Ok (a / b)%Q.
Proof.
  intros Hb. unfold truediv. destruct (Qeq_bool b 0) eqn:Hz; [|done].
  by apply Qeq_bool_eq in Hz.
Qed.

Lemma keyword_coverage_of_ok (keyword_overlap : nat) (job_keywords : list string) :
  ∃ coverage : Q,
    keyword_coverage_of keyword_overlap job_keywords = Ok coverage ∧
    (coverage ==
       match job_keywords with
       | [] => 0
       | _ :: _ => 100 * inject_Z (Z.of_nat keyword_overlap)
                   / inject_Z (Z.of_nat (length job_keywords))
       end)%Q.
Proof.
  destruct job_keywords as [|k ks].
  - by exists 0%Q.
  - unfold keyword_coverage_of. rewrite truediv_ok.
    + eexists. split; [reflexivity|]. unfold Qdiv. ring.
    + unfold Qeq. simpl. lia.
Qed.

(** The [try] block of [calculate_ats_score] never raises, and these are the
    entries of the dictionary it returns. *)
Lemma calculate_ats_score_entries (resume_text job_description : option string) :
  let results := hybrid resume_text job_description in
  let analysis := analyse resume_text job_description in
  ∃ coverage : Q,
    keyword_coverage_of
      (keyword_overlap_of (keywords_of resume_text) (keywords_of job_description))
      (keywords_of job_description) = Ok coverage ∧
    calculate_ats_score_body word_tokenize l2_normalize set_to_list self
      resume_text job_description = Ok analysis ∧
    dict_get "ats_score" analysis
      = Some (VNum (round (combined_similarity results * 100) 2)) ∧
    dict_get "model_method" analysis = Some (VStr (method results)) ∧
    dict_get "keyword_coverage" analysis = Some (VNum (round coverage 2)) ∧
    dict_get "resume_keywords" analysis
      = Some (VList (take 15 (keywords_of resume_text))) ∧
    dict_get "job_keywords" analysis
      = Some (VList (take 15 (keywords_of job_description))) ∧
    dict_get "missing_keywords" analysis
      = Some (VList (missing resume_text job_description)) ∧
    dict_get "resume_text" analysis = None ∧
    dict_get "resume_word_count" analysis = None.
Proof.
  intros results analysis. subst analysis.
  unfold calculate_ats_score, calculate_ats_score_body.
  destruct (keyword_coverage_of_ok
              (keyword_overlap_of (keywords_of resume_text) (keywords_of job_description))
              (keywords_of job_description)) as (coverage & Hcov & _).
  exists coverage. rewrite Hcov. cbn [mbind result_bind].
  split_and!; reflexivity.
Qed.

(** C1. The aggregator's policy. With the semantic engine available the
    combined similarity is 0.7 times the semantic similarity plus 0.3 times
    the lexical one and the method is the hybrid one
    (['hybrid_huggingface_tfidf']); otherwise the combined similarity is the
    lexical similarity itself and the method is the lexical-only one
    (['tfidf_only']). The analysis reports [round(combined * 100, 2)] as
    [ats_score], and the method. *)
Theorem hybrid_similarity_policy (resume_text job_description : option string) :
  let lexical := tfidf resume_text job_description in
  let semantic := huggingface resume_text job_description in
  let results := hybrid resume_text job_description in
  let analysis := analyse resume_text job_description in
  (if semantic_available self
   then combined_similarity results = ((7 # 10) * semantic + (3 # 10) * lexical)%Q ∧
        method results = "hybrid_huggingface_tfidf"
   else combined_similarity results = lexical ∧
        method results = "tfidf_only") ∧
  tfidf_similarity results = lexical ∧
  dict_get "ats_score" analysis
    = Some (VNum (round (combined_similarity results * 100) 2)) ∧
  dict_get "model_method" analysis = Some (VStr (method results)).
Proof.
  intros lexical semantic results analysis.
  destruct (calculate_ats_score_entries resume_text job_description)
    as (_ & _ & _ & Hscore & Hmethod & _).
  split_and!; [| |exact Hscore|exact Hmethod].
  - subst results. unfold semantic_available, calculate_hybrid_similarity.
    destruct (use_huggingface self); simpl; [|done].
    destruct (bool_decide (is_Some (hf_model self))); done.
  - subst results. unfold calculate_hybrid_similarity.
    by destruct (use_huggingface self && bool_decide (is_Some (hf_model self))).
Qed.

(** C8. The keyword coverage computed by [calculate_ats_score] is 100 times
    the overlap count divided by the number of job keywords, and 0 when
    there are no job keywords; the division is never reached with a zero
    divisor, so the computation returns a value. The analysis reports that
    value under [keyword_coverage], rounded to two decimals. *)
Theorem keyword_coverage_defined (resume_text job_description : option string) :
  let resume_keywords := keywords_of resume_text in
  let job_keywords := keywords_of job_description in
  let overlap :=
    size ((list_to_set resume_keywords : gset string) ∩ list_to_set job_keywords) in
  ∃ coverage : Q,
    keyword_coverage_of overlap job_keywords = Ok coverage ∧
    (coverage ==
       match job_keywords with
       | [] => 0
       | _ :: _ => 100 * inject_Z (Z.of_nat overlap)
                   / inject_Z (Z.of_nat (length job_keywords))
       end)%Q ∧
    dict_get "keyword_coverage" (analyse resume_text job_description)
      = Some (VNum (round coverage 2)).
Proof.
  intros resume_keywords job_keywords overlap.
  destruct (calculate_ats_score_entries resume_text job_description)
    as (coverage & Hcov & _ & _ & _ & Hget & _).
  exists coverage. split_and!; [exact Hcov| |exact Hget].
  destruct (keyword_coverage_of_ok overlap job_keywords) as (c & Hc & Heq).
  unfold overlap, job_keywords, resume_keywords in *.
  unfold keyword_overlap_of in Hcov. rewrite Hcov in Hc. by injection Hc as ->.
Qed.

End Scoring.

(** ** Gap analysis *)

Section Gap.

Variable word_tokenize : string -> list string.
Variable l2_normalize : list Q -> list Q.
Variable set_to_list : gset string -> list string.
Variable self : EnhancedATSResumeScorer.

(** Walking a set visits each of its elements once. *)
Hypothesis set_to_list_perm : ∀ X : gset string, set_to_list X ≡ₚ elements X.

Local Abbreviation keywords_of := (fun text => extract_keywords word_tokenize self text 20).
Local Abbreviation missing := (find_missing_keywords word_tokenize set_to_list self).
Local Abbreviation analyse :=
  (calculate_ats_score word_tokenize l2_normalize set_to_list self).

Lemma extract_keywords_NoDup (text : option string) (top_k : Z) :
  NoDup (extract_keywords word_tokenize self text top_k).
Proof.
  destruct text as [[|c s]|]; simpl; try constructor.
  set (keywords := List.filter _ _).
  destruct (ranked_keywords_spec keywords) as (Hnd & _).
  unfold slice_to.
  destruct (0 <=? top_k)%Z; rewrite fmap_take;
    (eapply sublist_NoDup; [exact Hnd | apply sublist_take]).
Qed.

Lemma missing_elem (resume_text job_description : option string) (w : string) :
  w ∈ missing resume_text job_description ->
  w ∈ keywords_of job_description ∧ w ∉ keywords_of resume_text.
Proof.
  unfold find_missing_keywords. intros Hw%subseteq_take.
  rewrite set_to_list_perm in Hw.
  apply elem_of_elements, elem_of_difference in Hw as [Hj Hr].
  by rewrite !elem_of_list_to_set in Hj, Hr.
Qed.

(** C3 (amended). [find_missing_keywords] returns the first 10 tokens met
    when the set difference job keywords minus resume keywords is walked:
    at most 10 tokens, none repeated, each a job keyword that is not a
    resume keyword. When at most 10 job keywords are absent from the resume
    keywords, the result holds all of them: it is the frequency-ordered
    difference up to the order of its tokens. *)
Theorem missing_keywords_difference (resume_text job_description : option string) :
  let resume_keywords := keywords_of resume_text in
  let job_keywords := keywords_of job_description in
  let result := missing resume_text job_description in
  result = take 10 (set_to_list (list_to_set job_keywords ∖ list_to_set resume_keywords)) ∧
  NoDup result ∧
  (length result <= 10)%nat ∧
  (∀ w, w ∈ result → w ∈ job_keywords ∧ w ∉ resume_keywords) ∧
  ((length (List.filter (fun w => bool_decide (w ∉ resume_keywords)) job_keywords)
      <= 10)%nat →
   result ≡ₚ missing_by_frequency resume_keywords job_keywords).
Proof.
  intros resume_keywords job_keywords result.
  set (D := (list_to_set job_keywords ∖ list_to_set resume_keywords : gset string)).
  assert (Hnd : NoDup (set_to_list D)).
  { rewrite set_to_list_perm. apply NoDup_elements. }
  split_and!.
  - done.
  - eapply sublist_NoDup; [exact Hnd | apply sublist_take].
  - unfold result, find_missing_keywords. rewrite length_take. lia.
  - intros w. apply missing_elem.
  - intros Hlen. unfold missing_by_frequency.
    set (F := List.filter _ job_keywords) in *.
    assert (HF : set_to_list D ≡ₚ F).
    { apply NoDup_Permutation; [done| |].
      - apply NoDup_ListNoDup, List.NoDup_filter, NoDup_ListNoDup,
          extract_keywords_NoDup.
      - intros w. rewrite set_to_list_perm, elem_of_elements.
        unfold D, F. rewrite elem_of_difference, !elem_of_list_to_set.
        rewrite (list_elem_of_In (List.filter _ _)), filter_In,
          <- list_elem_of_In, bool_decide_eq_true.
        done. }
    unfold result, find_missing_keywords. fold resume_keywords job_keywords D.
    rewrite !take_ge; [done | done |].
    by rewrite (Permutation_length HF).
Qed.

(** C4 (amended). Every token of the [missing_keywords] entry is one of the
    keywords extracted from the job description and none of the keywords
    extracted from the resume; so it is not in the [resume_keywords] entry
    (the first 15 resume keywords), and it is in the [job_keywords] entry
    (the first 15 job keywords) whenever the job description has at most 15
    keywords. *)
Theorem missing_keywords_entry_sound (resume_text job_description : option string) :
  let analysis := analyse resume_text job_description in
  ∃ missing_entry resume_entry job_entry : list string,
    dict_get "missing_keywords" analysis = Some (VList missing_entry) ∧
    dict_get "resume_keywords" analysis = Some (VList resume_entry) ∧
    dict_get "job_keywords" analysis = Some (VList job_entry) ∧
    resume_entry = take 15 (keywords_of resume_text) ∧
    job_entry = take 15 (keywords_of job_description) ∧
    ∀ w, w ∈ missing_entry →
         w ∈ keywords_of job_description ∧
         (w ∉ keywords_of resume_text) ∧
         (w ∉ resume_entry) ∧
         ((length (keywords_of job_description) <= 15)%nat → w ∈ job_entry).
Proof.
  intros analysis.
  destruct (calculate_ats_score_entries word_tokenize l2_normalize set_to_list self
              resume_text job_description)
    as (_ & _ & _ & _ & _ & _ & Hr & Hj & Hm & _).
  eexists _, _, _. split_and!; [exact Hm | exact Hr | exact Hj | done | done |].
  intros w [Hwj Hwr]%missing_elem. split_and!; [done | done | |].
  - intros Hin%subseteq_take. done.
  - intros Hlen. by rewrite take_ge.
Qed.

End Gap.

(** ** Range of the score *)

Section ScoreRange.

Variable word_tokenize : string -> list string.
Variable l2_normalize : list Q -> list Q.
Variable set_to_list : gset string -> list string.
Variable self : EnhancedATSResumeScorer.

Local Abbreviation tfidf := (calculate_tfidf_similarity l2_normalize self).
Local Abbreviation huggingface := (calculate_huggingface_similarity l2_normalize self).
Local Abbreviation hybrid := (calculate_hybrid_similarity l2_normalize self).
Local Abbreviation analyse :=
  (calculate_ats_score word_tokenize l2_normalize set_to_list self).

Local Open Scope Q_scope.

Lemma round_half_even_between (y : Q) (lo hi : Z) :
  inject_Z lo <= y -> y <= inject_Z hi ->
  (lo <= round_half_even y <= hi)%Z.
Proof.
  intros Hlo Hhi. unfold round_half_even.
  assert (Hf1 : (lo <= Qfloor y)%Z).
  { rewrite <- (Qfloor_Z lo). by apply Qfloor_resp_le. }
  assert (Hf2 : (Qfloor y <= hi)%Z).
  { rewrite <- (Qfloor_Z hi). by apply Qfloor_resp_le. }
  pose proof (Qfloor_le y) as Hfl.
  assert (Hup : 0 < y - inject_Z (Qfloor y) -> (Qfloor y + 1 <= hi)%Z).
  { intros Hpos. assert (Hlt : inject_Z (Qfloor y) < inject_Z hi) by lra.
    rewrite <- Zlt_Qlt in Hlt. lia. }
  destruct (Qcompare (y - inject_Z (Qfloor y)) (1 # 2)) eqn:Hc.
  - apply Qeq_alt in Hc. destruct (Z.even (Qfloor y)); [lia|].
    split; [lia|]. apply Hup. lra.
  - lia.
  - apply Qgt_alt in Hc. split; [lia|]. apply Hup. lra.
Qed.

Lemma round_between (x : Q) (ndigits : nat) (lo hi : Z) :
  inject_Z lo <= x -> x <= inject_Z hi ->
  inject_Z lo <= round x ndigits /\ round x ndigits <= inject_Z hi.
Proof.
  intros Hlo Hhi. unfold round.
  set (p := (10 ^ Z.of_nat ndigits)%Z).
  assert (Hp : (0 < p)%Z) by (apply Z.pow_pos_nonneg; lia).
  assert (HpQ : 0 < inject_Z p) by (rewrite Zlt_Qlt in Hp; exact Hp).
  destruct (round_half_even_between (x * inject_Z p) (lo * p) (hi * p)) as [H1 H2].
  - rewrite inject_Z_mult. apply Qmult_le_compat_r; lra.
  - rewrite inject_Z_mult. apply Qmult_le_compat_r; lra.
  - rewrite Zle_Qle, inject_Z_mult in H1, H2.
    split.
    + apply Qle_shift_div_l; [done|]. exact H1.
    + apply Qle_shift_div_r; [done|]. exact H2.
Qed.

(** X11. With both similarities between 0 and 1 the reported score is
    between 0 and 100. *)
Lemma ats_score_in_range (resume_text job_description : option string) :
  0 <= tfidf resume_text job_description <= 1 ->
  0 <= huggingface resume_text job_description <= 1 ->
  exists score : Q,
    dict_get "ats_score" (analyse resume_text job_description) = Some (VNum score) /\
    0 <= score <= 100.
Proof.
  intros Ht Hh.
  destruct (calculate_ats_score_entries word_tokenize l2_normalize set_to_list self
              resume_text job_description) as (_ & _ & _ & Hscore & _).
  eexists. split; [exact Hscore|].
  assert (Hc : 0 <= combined_similarity (hybrid resume_text job_description) <= 1).
  { unfold calculate_hybrid_similarity.
    destruct (use_huggingface self && bool_decide (is_Some (hf_model self)))%bool eqn:Ha;
      simpl; [|lra].
    apply andb_true_iff in Ha as [-> _]. lra. }
  change 0 with (inject_Z 0). change 100 with (inject_Z 100).
  apply round_between; unfold inject_Z; lra.
Qed.

Lemma similarities_zero_on_empty (resume_text job_description : option string) :
  preprocess_text resume_text = "" \/ preprocess_text job_description = "" ->
  tfidf resume_text job_description = 0 /\
  huggingface resume_text job_description = 0.
Proof.
  intros Hempty.
  assert (He : (Str.is_empty (preprocess_text resume_text)
                || Str.is_empty (preprocess_text job_description))%bool = true).
  { destruct Hempty as [-> | ->]; simpl; [done|]. apply orb_true_r. }
  unfold calculate_tfidf_similarity, calculate_huggingface_similarity.
  rewrite He. by destruct (hf_model self).
Qed.

(** X12. When either text normalises to the empty string the reported
    score is 0. *)
Lemma ats_score_zero_on_empty (resume_text job_description : option string) :
  preprocess_text resume_text = "" \/ preprocess_text job_description = "" ->
  exists score : Q,
    dict_get "ats_score" (analyse resume_text job_description) = Some (VNum score) /\
    score == 0.
Proof.
  intros Hempty.
  destruct (similarities_zero_on_empty _ _ Hempty) as [Ht Hh].
  destruct (calculate_ats_score_entries word_tokenize l2_normalize set_to_list self
              resume_text job_description) as (_ & _ & _ & Hscore & _).
  eexists. split; [exact Hscore|].
  unfold calculate_hybrid_similarity. rewrite Ht, Hh.
  destruct (use_huggingface self), (bool_decide (is_Some (hf_model self)));
    reflexivity.
Qed.

End ScoreRange.

(** ** Recommendations *)

Section Recommending.

Variable word_tokenize : string -> list string.
Variable l2_normalize : list Q -> list Q.
Variable set_to_list : gset string -> list string.
Variable self : EnhancedATSResumeScorer.

Local Abbreviation analyse :=
  (calculate_ats_score word_tokenize l2_normalize set_to_list self).

(** Without a [resume_text] entry the section analysis searches the empty
    string and finds no header. *)
Lemma analyze_sections_without_text (analysis : dict value) :
  dict_get "resume_text" analysis = None ->
  _analyze_sections analysis = Ok sections_all_absent.
Proof using Type. intros Hnone. unfold _analyze_sections, get_str. by rewrite Hnone. Qed.

(** Without [resume_text] and [resume_word_count] entries the format
    analysis takes the word count to be 0. *)
Lemma analyze_format_without_count (analysis : dict value) :
  dict_get "resume_text" analysis = None ->
  dict_get "resume_word_count" analysis = None ->
  ∃ report : FormatAnalysis,
    _analyze_format analysis = Ok report ∧
    warnings report = ["Resume is too short - consider adding more detail"] ∧
    tips report = [].
Proof using Type.
  intros Htext Hcount. unfold _analyze_format, get_str, get_num.
  rewrite Htext, Hcount. eexists. split; [reflexivity|]. by split.
Qed.

(** A successful [generate_recommendations] carries the results of the
    section and format analyses. *)
Lemma generate_recommendations_parts (analysis : dict value) (rec : Recommendations) :
  generate_recommendations analysis = Ok rec ->
  _analyze_sections analysis = Ok (sections rec) ∧
  _analyze_format analysis = Ok (format rec).
Proof using Type.
  unfold generate_recommendations.
  destruct (get_num "ats_score" 0 analysis); cbn; [|done].
  destruct (get_list "missing_keywords" [] analysis); cbn; [|done].
  destruct (get_list "resume_keywords" [] analysis); cbn; [|done].
  destruct (_analyze_sections analysis); cbn; [|done].
  destruct (_analyze_keywords _ _); cbn; [|done].
  destruct (_analyze_format analysis); cbn; [|done].
  destruct (_analyze_content analysis); cbn; [|done].
  destruct (_analyze_ats_optimization analysis); cbn; [|done].
  by intros [= <-].
Qed.

(** On every analysis the scorer produces, the section analysis reports the
    four canonical sections absent and the format analysis warns that the
    resume is too short; a [generate_recommendations] call that returns
    carries both. *)
Lemma scorer_analysis_recommendations (resume_text job_description : option string) :
  let analysis := analyse resume_text job_description in
  _analyze_sections analysis = Ok sections_all_absent ∧
  (∃ report : FormatAnalysis,
      _analyze_format analysis = Ok report ∧
      warnings report = ["Resume is too short - consider adding more detail"]) ∧
  (∀ rec : Recommendations,
      generate_recommendations analysis = Ok rec →
      sections rec = sections_all_absent ∧
      warnings (format rec) = ["Resume is too short - consider adding more detail"]).
Proof.
  intros analysis.
  destruct (calculate_ats_score_entries word_tokenize l2_normalize set_to_list self
              resume_text job_description)
    as (_ & _ & _ & _ & _ & _ & _ & _ & _ & Htext & Hcount).
  fold analysis in Htext, Hcount.
  pose proof (analyze_sections_without_text analysis Htext) as Hsec.
  destruct (analyze_format_without_count analysis Htext Hcount)
    as (report & Hfmt & Hwarn & _).
  split_and!; [done | by exists report |].
  intros rec [Hs Hf]%generate_recommendations_parts.
  rewrite Hsec in Hs. rewrite Hfmt in Hf.
  injection Hs as <-. injection Hf as <-. done.
Qed.

(** The inner loop appends the keyword to the list of its first matching
    category, if there is one. *)
Lemma categorize_in_spec keyword keyword_lower categories categorized :
  categorize_in keyword keyword_lower categories categorized =
  match first_category_in keyword_lower categories with
  | Some category =>
      categorized' ← dict_update category
                      (fun l : list string => l ++ [keyword]) categorized;
      Ok (categorized', true)
  | None => Ok (categorized, false)
  end.
Proof using Type.
  induction categories as [|[category category_keywords] rest IH]; simpl; [done|].
  by destruct (List.existsb _ category_keywords).
Qed.

Lemma category_of_cases keyword :
  first_category_in (Str.lower keyword) keyword_categories = Some "action_verbs" ∨
  first_category_in (Str.lower keyword) keyword_categories = Some "technical_skills" ∨
  first_category_in (Str.lower keyword) keyword_categories = Some "soft_skills" ∨
  first_category_in (Str.lower keyword) keyword_categories = Some "quantifiers" ∨
  first_category_in (Str.lower keyword) keyword_categories = None.
Proof using Type.
  unfold keyword_categories. cbn [first_category_in].
  repeat match goal with
         | |- context [List.existsb ?f ?l] =>
             destruct (List.existsb f l); [by repeat (left + right)|]
         end.
  by repeat right.
Qed.

(** One round of the outer loop, on a dictionary with the five keys the
    recommender initialises. *)
Lemma categorize_loop_spec keywords t a s q o :
  categorize_loop keywords
    [ ("technical", t); ("action_verbs", a); ("soft_skills", s);
      ("quantifiers", q); ("other", o) ] =
  if List.existsb (in_category "technical_skills") keywords
  then Raise (KeyError "technical_skills")
  else Ok [ ("technical", t);
            ("action_verbs", a ++ List.filter (in_category "action_verbs") keywords);
            ("soft_skills", s ++ List.filter (in_category "soft_skills") keywords);
            ("quantifiers", q ++ List.filter (in_category "quantifiers") keywords);
            ("other", o ++ List.filter (in_category "other") keywords) ].
Proof using Type.
  revert a s q o. induction keywords as [|keyword rest IH]; intros a s q o.
  - simpl. by rewrite !app_nil_r.
  - cbn [categorize_loop List.existsb List.filter]. rewrite categorize_in_spec.
    assert (Hcat : ∀ c, in_category c keyword
                        = String.eqb (category_of keyword) c) by done.
    rewrite !Hcat. unfold category_of.
    destruct (category_of_cases keyword) as [H | [H | [H | [H | H]]]];
      rewrite H;
      cbn [default from_option id String.eqb Ascii.eqb Bool.eqb orb
           mbind result_bind dict_update];
      [| done | | |];
      rewrite IH; destruct (List.existsb _ rest); try done;
      by rewrite <- !app_assoc.
Qed.

(** What [_categorize_keywords] does: it raises [KeyError] as soon as a
    keyword belongs to [technical_skills]; on every other list it places
    each keyword in the list of its one category. *)
Lemma categorize_keywords_spec keywords :
  _categorize_keywords keywords =
  if List.existsb (in_category "technical_skills") keywords
  then Raise (KeyError "technical_skills")
  else Ok (categorized_by keywords).
Proof using Type. unfold _categorize_keywords. by rewrite categorize_loop_spec. Qed.

(** The keyword advice names at most three examples for each non-empty
    category, in the order of the categories. *)
Lemma category_advice_examples (missing_by_category : dict (list string)) :
  (category_advice missing_by_category).1 =
  List.map (fun entry : string * list string =>
              "Add " +:+ entry.1 +:+ " keywords: "
                +:+ Str.join ", " (take 3 entry.2))
           (List.filter (fun entry : string * list string =>
                           negb (bool_decide (entry.2 = [])))
                        missing_by_category).
Proof using Type.
  induction missing_by_category as [|[category keywords] rest IH]; [done|].
  cbn [category_advice List.filter]. destruct (category_advice rest) as [recs adds].
  destruct keywords as [|k ks]; simpl in *; by rewrite IH.
Qed.

(** X17. [generate_recommendations] on an analysis the scorer produces: it
    raises [KeyError] exactly when a missing keyword belongs to
    [technical_skills], and otherwise returns recommendations with the four
    sections absent and the too-short warning. *)
Lemma generate_recommendations_on_scorer_analysis
    (resume_text job_description : option string) :
  let analysis := analyse resume_text job_description in
  let missing_keywords :=
    find_missing_keywords word_tokenize set_to_list self resume_text job_description in
  if List.existsb (in_category "technical_skills") missing_keywords
  then generate_recommendations analysis = Raise (KeyError "technical_skills")
  else ∃ rec : Recommendations,
         generate_recommendations analysis = Ok rec ∧
         sections rec = sections_all_absent ∧
         warnings (format rec)
           = ["Resume is too short - consider adding more detail"].
Proof.
  intros analysis missing_keywords.
  destruct (calculate_ats_score_entries word_tokenize l2_normalize set_to_list self
              resume_text job_description)
    as (_ & _ & _ & Hscore & _ & _ & Hres & _ & Hmiss & Htext & Hcount).
  fold analysis in Hscore, Hres, Hmiss, Htext, Hcount.
  fold missing_keywords in Hmiss.
  pose proof (analyze_sections_without_text analysis Htext) as Hsec.
  destruct (analyze_format_without_count analysis Htext Hcount)
    as (report & Hfmt & Hwarn & _).
  unfold generate_recommendations, _analyze_content, _analyze_ats_optimization,
    get_num, get_list, get_str.
  rewrite Hscore, Hmiss, Hres, Htext. cbn [mbind result_bind].
  rewrite Hsec. cbn [mbind result_bind].
  unfold _analyze_keywords. rewrite categorize_keywords_spec.
  destruct (List.existsb _ missing_keywords); [done|].
  cbn [mbind result_bind]. destruct (category_advice _) as [recs adds].
  rewrite Hfmt. cbn [mbind result_bind].
  set (score := round _ 2).
  destruct (Qltb score 50); [|destruct (Qltb score 70)]; cbn [mbind result_bind];
    (eexists; split; [reflexivity|]; by split).
Qed.

End Recommending.

(** ** Worked instances *)

Section Instances.

Import Sample.

Local Abbreviation analyse_with :=
  (calculate_ats_score split_words normalize_axis elements).

Local Lemma elements_perm (X : gset string) : elements X ≡ₚ elements X.
Proof. reflexivity. Defined.

(** C2 (failing input). An embedding model may place two texts at a negative
    cosine; the score is then negative. Here the embeddings are opposite
    ([1, 0] and [-1, 0]), the lexical similarity is 0, and the reported
    [ats_score] is -70. *)
Theorem ats_score_negative_for_opposed_embeddings :
  ∃ score : Q,
    dict_get "ats_score"
      (analyse_with hybrid_scorer (Some "resume text") (Some "job text"))
      = Some (VNum score) ∧
    (score == -70)%Q ∧ (score < 0)%Q.
Proof. eexists. split; [vm_compute; reflexivity|]. split; reflexivity. Qed.

(** C7 (failing input). For the single missing keyword [agile], whose first
    matching category is [technical_skills], [_categorize_keywords] raises
    [KeyError]: the dictionary it fills has the key [technical], not
    [technical_skills]. [_analyze_keywords] raises with it. *)
Theorem categorize_keywords_raises_on_technical :
  _categorize_keywords ["agile"] = Raise (KeyError "technical_skills") ∧
  _analyze_keywords ["agile"] [] = Raise (KeyError "technical_skills").
Proof. split; reflexivity. Qed.

(** C10 (failing input). The scorer's analysis of a resume that lacks the job
    keyword [agile] has no [resume_text] entry; the section analysis reports
    the four sections absent and the format analysis warns that the resume is
    too short, but [generate_recommendations] on this analysis raises
    [KeyError] in its keyword step and returns nothing. *)
Theorem recommendations_raise_on_technical_gap :
  let analysis :=
    analyse_with lexical_scorer (Some "python developer")
                 (Some "agile python developer") in
  dict_get "missing_keywords" analysis = Some (VList ["agile"]) ∧
  dict_get "resume_text" analysis = None ∧
  _analyze_sections analysis = Ok sections_all_absent ∧
  (∃ report : FormatAnalysis,
      _analyze_format analysis = Ok report ∧
      warnings report = ["Resume is too short - consider adding more detail"]) ∧
  generate_recommendations analysis = Raise (KeyError "technical_skills").
Proof.
  intros analysis.
  destruct (scorer_analysis_recommendations split_words normalize_axis elements
              lexical_scorer (Some "python developer")
              (Some "agile python developer")) as (Hsec & Hfmt & _).
  split_and!; [by vm_compute | by vm_compute | exact Hsec | exact Hfmt | by vm_compute].
Qed.

(** C3 (counterexample). With the job description [zeta zeta alpha] and an
    empty resume, the frequency order of the missing keywords is
    [zeta; alpha]; a set walked in the other order gives [alpha; zeta]. *)
Lemma missing_keywords_order_counterexample :
  extract_keywords split_words lexical_scorer (Some "zeta zeta alpha") 20
    = ["zeta"; "alpha"] ∧
  missing_by_frequency
    (extract_keywords split_words lexical_scorer (Some "") 20)
    (extract_keywords split_words lexical_scorer (Some "zeta zeta alpha") 20)
    = ["zeta"; "alpha"] ∧
  find_missing_keywords split_words elements lexical_scorer
    (Some "") (Some "zeta zeta alpha") = ["alpha"; "zeta"] ∧
  find_missing_keywords split_words elements lexical_scorer
    (Some "") (Some "zeta zeta alpha")
  ≠ missing_by_frequency
      (extract_keywords split_words lexical_scorer (Some "") 20)
      (extract_keywords split_words lexical_scorer (Some "zeta zeta alpha") 20).
Proof. split_and!; by vm_compute. Qed.

(** C4 (counterexample). The job description has sixteen keywords and the
    resume the first fifteen: [pytorch] is missing, and the [job_keywords]
    entry, cut to fifteen, does not hold it. *)
Lemma missing_keyword_outside_job_entry_counterexample :
  let analysis :=
    analyse_with lexical_scorer (Some resume_fifteen) (Some job_sixteen) in
  ∃ missing_entry job_entry : list string,
    dict_get "missing_keywords" analysis = Some (VList missing_entry) ∧
    dict_get "job_keywords" analysis = Some (VList job_entry) ∧
    "pytorch" ∈ missing_entry ∧
    ¬ ("pytorch" ∈ job_entry) ∧
    ¬ (∀ w, w ∈ missing_entry → w ∈ job_entry).
Proof.
  intros analysis.
  assert (Hm : dict_get "missing_keywords" analysis = Some (VList ["pytorch"]))
    by (by vm_compute).
  eexists _, _. split; [exact Hm|]. split; [by vm_compute|].
  assert (Hout : ¬ ("pytorch" ∈
    ["python"; "django"; "flask"; "docker"; "kubernetes"; "terraform";
     "jenkins"; "linux"; "redis"; "kafka"; "spark"; "hadoop"; "airflow";
     "pandas"; "numpy"])).
  { intros Hin. apply list_elem_of_In in Hin. simpl in Hin.
    repeat (destruct Hin as [Hin | Hin]; [discriminate|]). done. }
  split_and!; [apply elem_of_cons; by left | exact Hout |].
  intros Hall. apply Hout, Hall. apply elem_of_cons. by left.
Qed.

(** A negative [top_k] is a slice bound counted from the end: the last
    keyword of the ranking is dropped. *)
Example extract_keywords_negative_top_k :
  extract_keywords split_words lexical_scorer
    (Some "zeta zeta alpha the beta beta") (-1) = ["zeta"; "beta"].
Proof. reflexivity. Qed.

(** The ranking theorem at the text [zeta zeta alpha the beta beta] and
    [top_k = 2]. *)
Lemma extract_keywords_ranking_witness :
  (0 <= 2)%Z ∧
  "zeta zeta alpha the beta beta" ≠ "" ∧
  let tokens := split_words (Str.lower "zeta zeta alpha the beta beta") in
  let keywords := List.filter (is_keyword lexical_scorer) tokens in
  (∀ w, w ∈ keywords ↔
        w ∈ tokens ∧ (w ∉ stop_words lexical_scorer) ∧
        (2 < String.length w)%nat ∧ Str.isalpha w = true) ∧
  (∃ ranked : list (string * nat),
      extract_keywords split_words lexical_scorer
        (Some "zeta zeta alpha the beta beta") 2
        = take (Z.to_nat 2) ranked.*1 ∧
      NoDup ranked.*1 ∧
      (∀ w n, (w, n) ∈ ranked ↔ w ∈ keywords ∧ n = frequency w keywords) ∧
      StronglySorted (ranks_before keywords) ranked) ∧
  extract_keywords split_words lexical_scorer (Some "") 2 = [] ∧
  extract_keywords split_words lexical_scorer None 2 = [].
Proof.
  split; [discriminate|]. split; [discriminate|].
  apply (extract_keywords_ranking split_words lexical_scorer
           "zeta zeta alpha the beta beta" 2); discriminate.
Defined.

(** The gap theorem with sets walked in the order of [elements]. *)
Lemma missing_keywords_difference_witness :
  (∀ X : gset string, elements X ≡ₚ elements X) ∧
  let resume_keywords :=
    extract_keywords split_words lexical_scorer (Some "python developer") 20 in
  let job_keywords :=
    extract_keywords split_words lexical_scorer
      (Some "agile python developer agile") 20 in
  let result :=
    find_missing_keywords split_words elements lexical_scorer
      (Some "python developer") (Some "agile python developer agile") in
  result = take 10 (elements (list_to_set job_keywords ∖ list_to_set resume_keywords
                                : gset string)) ∧
  NoDup result ∧
  (length result <= 10)%nat ∧
  (∀ w, w ∈ result → w ∈ job_keywords ∧ w ∉ resume_keywords) ∧
  ((length (List.filter (fun w => bool_decide (w ∉ resume_keywords)) job_keywords)
      <= 10)%nat →
   result ≡ₚ missing_by_frequency resume_keywords job_keywords).
Proof.
  split; [exact elements_perm|].
  exact (missing_keywords_difference split_words elements lexical_scorer
           elements_perm (Some "python developer")
           (Some "agile python developer agile")).
Defined.

(** The entry theorem with sets walked in the order of [elements]. *)
Lemma missing_keywords_entry_sound_witness :
  (∀ X : gset string, elements X ≡ₚ elements X) ∧
  let analysis :=
    analyse_with lexical_scorer (Some resume_fifteen) (Some job_sixteen) in
  ∃ missing_entry resume_entry job_entry : list string,
    dict_get "missing_keywords" analysis = Some (VList missing_entry) ∧
    dict_get "resume_keywords" analysis = Some (VList resume_entry) ∧
    dict_get "job_keywords" analysis = Some (VList job_entry) ∧
    resume_entry
      = take 15 (extract_keywords split_words lexical_scorer (Some resume_fifteen) 20) ∧
    job_entry
      = take 15 (extract_keywords split_words lexical_scorer (Some job_sixteen) 20) ∧
    ∀ w, w ∈ missing_entry →
         w ∈ extract_keywords split_words lexical_scorer (Some job_sixteen) 20 ∧
         (w ∉ extract_keywords split_words lexical_scorer (Some resume_fifteen) 20) ∧
         (w ∉ resume_entry) ∧
         ((length (extract_keywords split_words lexical_scorer (Some job_sixteen) 20)
             <= 15)%nat → w ∈ job_entry).
Proof.
  split; [exact elements_perm|].
  exact (missing_keywords_entry_sound split_words normalize_axis elements
           lexical_scorer elements_perm (Some resume_fifteen) (Some job_sixteen)).
Defined.

End Instances.

(** ** Shape of normalised text *)

Section NormalForm.

Lemma norm_char_fixed c :
  norm_char c = true ->
  Str.char_lower c = c /\ Re.sub_non_alnum_char c = c /\
  Str.isspace c = Ascii.eqb c " "%char.
Proof.
  destruct c as [[] [] [] [] [] [] [] []]; vm_compute; intros H;
    try discriminate H; repeat split.
Qed.

Lemma pipeline_char c :
  let d := Re.sub_non_alnum_char (Str.char_lower c) in
  (norm_char d || Str.isspace d)%bool = true.
Proof. destruct c as [[] [] [] [] [] [] [] []]; reflexivity. Qed.

Lemma not_space_norm c :
  (norm_char c || Str.isspace c)%bool = true -> Str.isspace c = false ->
  norm_char c = true.
Proof. intros H Hs. rewrite Hs, orb_false_r in H. exact H. Qed.

Lemma sub_ws_from_chars b x :
  Str.forallb (fun c => norm_char c || Str.isspace c)%bool x = true ->
  Str.forallb norm_char (Re.sub_ws_from b x) = true.
Proof.
  revert b. induction x as [|c x IH]; intros b; simpl; [done|].
  intros [Hc Hx]%andb_true_iff.
  destruct (Str.isspace c) eqn:Hs.
  - destruct b; simpl; auto.
  - rewrite orb_false_r in Hc. simpl. rewrite Hc. simpl. auto.
Qed.

Lemma sub_ws_from_single_spaced b x :
  single_spaced b (Re.sub_ws_from b x) = true.
Proof.
  revert b. induction x as [|c x IH]; intros b; simpl; [done|].
  destruct (Str.isspace c) eqn:Hs.
  - destruct b; [apply IH|]. simpl. apply IH.
  - simpl. rewrite Hs. apply IH.
Qed.

Lemma lstrip_chars p s :
  Str.forallb p s = true -> Str.forallb p (Str.lstrip s) = true.
Proof.
  induction s as [|c s IH]; simpl; [done|].
  intros H. destruct (Str.isspace c); [|exact H].
  apply andb_true_iff in H as [_ H]. auto.
Qed.

Lemma rstrip_chars p s :
  Str.forallb p s = true -> Str.forallb p (Str.rstrip s) = true.
Proof.
  induction s as [|c s IH]; simpl; [done|].
  intros [Hc Hs]%andb_true_iff. specialize (IH Hs).
  destruct (Str.rstrip s) as [|d r].
  - destruct (Str.isspace c); simpl; [done|]. by rewrite Hc.
  - change (Str.forallb p (String c (String d r))) with
      (p c && Str.forallb p (String d r))%bool.
    by rewrite Hc, IH.
Qed.

Lemma lstrip_single_spaced b b' s :
  single_spaced b s = true -> single_spaced b' (Str.lstrip s) = true.
Proof.
  revert b. induction s as [|c s IH]; intros b; simpl; [done|].
  destruct (Str.isspace c) eqn:Hs.
  - intros [[_ _]%andb_true_iff H]%andb_true_iff. eauto.
  - intros H. simpl. by rewrite Hs.
Qed.

Lemma rstrip_single_spaced b s :
  single_spaced b s = true -> single_spaced b (Str.rstrip s) = true.
Proof.
  revert b. induction s as [|c s IH]; intros b; simpl; [done|].
  destruct (Str.isspace c) eqn:Hs.
  - intros [[Hc Hb]%andb_true_iff H]%andb_true_iff. specialize (IH _ H).
    destruct (Str.rstrip s) as [|d r]; [done|].
    change (single_spaced b (String c (String d r))) with
      (if Str.isspace c
       then Ascii.eqb c " "%char && negb b && single_spaced true (String d r)
       else single_spaced false (String d r))%bool.
    by rewrite Hs, Hc, Hb, IH.
  - intros H. specialize (IH _ H).
    destruct (Str.rstrip s) as [|d r]; [simpl; by rewrite Hs|].
    change (single_spaced b (String c (String d r))) with
      (if Str.isspace c
       then Ascii.eqb c " "%char && negb b && single_spaced true (String d r)
       else single_spaced false (String d r))%bool.
    by rewrite Hs.
Qed.

Lemma lstrip_no_leading_space s : starts_with_space (Str.lstrip s) = false.
Proof.
  induction s as [|c s IH]; simpl; [done|].
  destruct (Str.isspace c) eqn:Hs; [done|]. simpl. exact Hs.
Qed.

Lemma rstrip_keeps_head s :
  starts_with_space s = false -> starts_with_space (Str.rstrip s) = false.
Proof.
  destruct s as [|c s]; simpl; [done|]. intros Hs.
  destruct (Str.rstrip s); [by rewrite Hs|done].
Qed.

Lemma rstrip_no_trailing_space s : ends_with_space (Str.rstrip s) = false.
Proof.
  induction s as [|c s IH]; simpl; [done|].
  destruct (Str.rstrip s) as [|d r].
  - destruct (Str.isspace c) eqn:Hs; [done|]. simpl. exact Hs.
  - exact IH.
Qed.

Lemma starts_with_space_false s :
  starts_with_space s = false -> Str.startswith " " s = false.
Proof.
  destruct s as [|c s]; [done|].
  change (Str.startswith " " (String c s)) with
    (Ascii.eqb " " c && Str.startswith "" s)%bool.
  change (starts_with_space (String c s)) with (Str.isspace c).
  destruct (Ascii.eqb_spec " "%char c) as [<-|]; [discriminate|done].
Qed.

Lemma single_spaced_after_space s :
  single_spaced true s = true -> starts_with_space s = false.
Proof.
  destruct s as [|d s]; [done|].
  change (starts_with_space (String d s)) with (Str.isspace d).
  simpl. destruct (Str.isspace d); [|done].
  rewrite andb_false_r. discriminate.
Qed.

Lemma single_spaced_no_double b s :
  single_spaced b s = true -> Str.contains "  " s = false.
Proof.
  revert b. induction s as [|c s IH]; intros b; [done|].
  change (Str.contains "  " (String c s)) with
    (Ascii.eqb " " c && Str.startswith " " s || Str.contains "  " s)%bool.
  simpl single_spaced. destruct (Str.isspace c) eqn:Hs.
  - intros [_ H]%andb_true_iff. rewrite (IH _ H), orb_false_r.
    apply andb_false_iff. right.
    by apply starts_with_space_false, single_spaced_after_space.
  - intros H. rewrite (IH _ H), orb_false_r.
    destruct (Ascii.eqb_spec " "%char c) as [<-|]; [discriminate Hs|done].
Qed.

Lemma ends_with_space_false s :
  ends_with_space s = false -> Path.endswith_char " " s = false.
Proof.
  induction s as [|c s IH]; [done|]. destruct s as [|d s].
  - simpl. destruct (Ascii.eqb_spec c " "%char) as [->|]; [discriminate|done].
  - intros H. apply IH. exact H.
Qed.

Lemma pipeline_chars t :
  Str.forallb (fun c => norm_char c || Str.isspace c)%bool
              (Re.sub_non_alnum (Str.lower t)) = true.
Proof.
  induction t as [|c t IH]; [done|].
  unfold Re.sub_non_alnum, Str.lower in *. simpl.
  by rewrite (pipeline_char c), IH.
Qed.

Lemma preprocess_text_shape (text : option string) :
  normalized (preprocess_text text) = true.
Proof.
  destruct text as [[|c t]|]; try reflexivity.
  unfold preprocess_text, Str.strip, Re.sub_ws.
  set (x := Re.sub_non_alnum (Str.lower (String c t))).
  pose proof (pipeline_chars (String c t)) as Hx. fold x in Hx.
  unfold normalized. rewrite !andb_true_iff, !negb_true_iff. split_and!.
  - by apply rstrip_chars, lstrip_chars, sub_ws_from_chars.
  - apply starts_with_space_false, rstrip_keeps_head, lstrip_no_leading_space.
  - apply ends_with_space_false, rstrip_no_trailing_space.
  - apply (single_spaced_no_double false), rstrip_single_spaced.
    apply (lstrip_single_spaced false), sub_ws_from_single_spaced.
Qed.

(** X1. The text [preprocess_text] returns is normalised: it holds only
    lower-case ASCII letters, digits and spaces, it neither starts nor ends
    with a space, and it has no two spaces in a row. *)
Theorem preprocess_text_normalized (text : option string) :
  let clean := preprocess_text text in
  Str.forallb norm_char clean = true /\
  Str.startswith " " clean = false /\
  Path.endswith_char " " clean = false /\
  Str.contains "  " clean = false.
Proof.
  intros clean. pose proof (preprocess_text_shape text) as H.
  unfold normalized in H. fold clean in H.
  rewrite !andb_true_iff, !negb_true_iff in H. tauto.
Qed.

Lemma map_fixed (p : ascii -> bool) (f : ascii -> ascii) s :
  (forall c, p c = true -> f c = c) ->
  Str.forallb p s = true -> Str.map f s = s.
Proof.
  intros Hf. induction s as [|c s IH]; simpl; [done|].
  intros [Hc Hs]%andb_true_iff. by rewrite (Hf c Hc), IH.
Qed.

Lemma norm_starts_with_space s :
  Str.forallb norm_char s = true ->
  Str.startswith " " s = false -> starts_with_space s = false.
Proof.
  destruct s as [|c s]; [done|].
  change (Str.startswith " " (String c s)) with
    (Ascii.eqb " " c && Str.startswith "" s)%bool.
  change (starts_with_space (String c s)) with (Str.isspace c).
  simpl Str.forallb. intros [Hc _]%andb_true_iff.
  destruct (norm_char_fixed c Hc) as (_ & _ & ->).
  rewrite Ascii.eqb_sym. destruct s; simpl; by rewrite andb_true_r.
Qed.

Lemma norm_ends_with_space s :
  Str.forallb norm_char s = true ->
  Path.endswith_char " " s = false -> ends_with_space s = false.
Proof.
  induction s as [|c s IH]; [done|]. destruct s as [|d s].
  - simpl. rewrite andb_true_r. intros Hc.
    by destruct (norm_char_fixed c Hc) as (_ & _ & ->).
  - intros [_ Hs]%andb_true_iff H. by apply IH.
Qed.

Lemma norm_single_spaced b s :
  Str.forallb norm_char s = true ->
  Str.contains "  " s = false ->
  (b = true -> starts_with_space s = false) ->
  single_spaced b s = true.
Proof.
  revert b. induction s as [|c s IH]; intros b; [done|].
  change (Str.contains "  " (String c s)) with
    (Ascii.eqb " " c && Str.startswith " " s || Str.contains "  " s)%bool.
  change (starts_with_space (String c s)) with (Str.isspace c).
  simpl Str.forallb. simpl single_spaced.
  intros [Hc Hs]%andb_true_iff [Hpair Hrest]%orb_false_iff Hb.
  destruct (Str.isspace c) eqn:Hsp.
  - destruct (norm_char_fixed c Hc) as (_ & _ & Heq). rewrite Hsp in Heq.
    rewrite <- Heq. destruct b; [by specialize (Hb eq_refl)|]. simpl.
    apply IH; [done | done |]. intros _.
    apply norm_starts_with_space; [done|].
    rewrite Ascii.eqb_sym, <- Heq in Hpair. exact Hpair.
  - apply IH; [done | done | discriminate].
Qed.

Lemma sub_ws_from_fixed b s :
  single_spaced b s = true -> Re.sub_ws_from b s = s.
Proof.
  revert b. induction s as [|c s IH]; intros b; simpl; [done|].
  destruct (Str.isspace c).
  - intros [[Hc Hb]%andb_true_iff H]%andb_true_iff.
    apply Ascii.eqb_eq in Hc as ->. apply negb_true_iff in Hb as ->.
    by rewrite IH.
  - intros H. by rewrite IH.
Qed.

Lemma lstrip_fixed s : starts_with_space s = false -> Str.lstrip s = s.
Proof. destruct s as [|c s]; simpl; [done|]. by intros ->. Qed.

Lemma rstrip_fixed s : ends_with_space s = false -> Str.rstrip s = s.
Proof.
  induction s as [|c s IH]; [done|]. destruct s as [|d s].
  - simpl. by intros ->.
  - intros H. change (Str.rstrip (String c (String d s))) with
      (match Str.rstrip (String d s) with
       | EmptyString => if Str.isspace c then EmptyString else String c EmptyString
       | r => String c r
       end).
    by rewrite (IH H).
Qed.

Lemma normalized_fixed s : normalized s = true -> preprocess_text (Some s) = s.
Proof.
  unfold normalized. rewrite !andb_true_iff, !negb_true_iff.
  intros [[[Hchars Hstart] Hend] Hdouble].
  destruct s as [|c t]; [done|].
  unfold preprocess_text, Str.strip, Re.sub_ws, Re.sub_non_alnum, Str.lower.
  rewrite (map_fixed norm_char Str.char_lower);
    [| intros a Ha; by destruct (norm_char_fixed a Ha) | done].
  rewrite (map_fixed norm_char Re.sub_non_alnum_char);
    [| intros a Ha; by destruct (norm_char_fixed a Ha) as (_ & ? & _) | done].
  rewrite sub_ws_from_fixed by (apply norm_single_spaced; [done | done | discriminate]).
  rewrite lstrip_fixed by (by apply norm_starts_with_space).
  apply rstrip_fixed. by apply norm_ends_with_space.
Qed.

(** X2. The fixed points of [preprocess_text] are exactly the normalised
    texts, and normalising twice is the same as normalising once. *)
Theorem preprocess_text_idempotent :
  (forall s : string, preprocess_text (Some s) = s <-> normalized s = true) /\
  (forall text : option string,
      preprocess_text (Some (preprocess_text text)) = preprocess_text text).
Proof.
  split.
  - intros s. split; [|apply normalized_fixed].
    intros <-. apply preprocess_text_shape.
  - intros text. apply normalized_fixed, preprocess_text_shape.
Qed.

End NormalForm.

(** ** Letter case *)

Section LetterCase.

Variable word_tokenize : string -> list string.
Variable l2_normalize : list Q -> list Q.
Variable set_to_list : gset string -> list string.
Variable self : EnhancedATSResumeScorer.

Lemma char_lower_idem c : Str.char_lower (Str.char_lower c) = Str.char_lower c.
Proof. destruct c as [[] [] [] [] [] [] [] []]; reflexivity. Qed.

Lemma lower_idem s : Str.lower (Str.lower s) = Str.lower s.
Proof.
  unfold Str.lower. induction s as [|c s IH]; simpl; [done|].
  by rewrite char_lower_idem, IH.
Qed.

Lemma preprocess_text_lower s :
  preprocess_text (Some (Str.lower s)) = preprocess_text (Some s).
Proof.
  destruct s as [|c s]; [done|].
  change (Str.lower (String c s)) with
    (String (Str.char_lower c) (Str.lower s)).
  unfold preprocess_text.
  change (String (Str.char_lower c) (Str.lower s)) with (Str.lower (String c s)).
  by rewrite lower_idem.
Qed.

Lemma extract_keywords_lower s top_k :
  extract_keywords word_tokenize self (Some (Str.lower s)) top_k
  = extract_keywords word_tokenize self (Some s) top_k.
Proof.
  destruct s as [|c s]; [done|].
  change (Str.lower (String c s)) with
    (String (Str.char_lower c) (Str.lower s)).
  unfold extract_keywords.
  change (String (Str.char_lower c) (Str.lower s)) with (Str.lower (String c s)).
  by rewrite lower_idem.
Qed.

(** X3. The analysis does not depend on letter case: lower-casing both
    texts first gives the same dictionary. *)
Theorem analysis_ignores_case (resume_text job_description : string) :
  calculate_ats_score word_tokenize l2_normalize set_to_list self
    (Some (Str.lower resume_text)) (Some (Str.lower job_description))
  = calculate_ats_score word_tokenize l2_normalize set_to_list self
      (Some resume_text) (Some job_description).
Proof.
  unfold calculate_ats_score, calculate_ats_score_body,
    calculate_hybrid_similarity, calculate_tfidf_similarity,
    calculate_huggingface_similarity, find_missing_keywords.
  by rewrite !preprocess_text_lower, !extract_keywords_lower.
Qed.

End LetterCase.

(** ** The entries of the analysis *)

Section Entries.

Variable word_tokenize : string -> list string.
Variable l2_normalize : list Q -> list Q.
Variable set_to_list : gset string -> list string.
Variable self : EnhancedATSResumeScorer.

Local Abbreviation keywords_of := (fun text => extract_keywords word_tokenize self text 20).
Local Abbreviation analyse :=
  (calculate_ats_score word_tokenize l2_normalize set_to_list self).

Local Open Scope Q_scope.

(** The whole dictionary [calculate_ats_score] returns. *)
Lemma calculate_ats_score_dict (resume_text job_description : option string) :
  let results :=
    calculate_hybrid_similarity l2_normalize self resume_text job_description in
  let missing_keywords :=
    find_missing_keywords word_tokenize set_to_list self resume_text job_description in
  exists coverage : Q,
    keyword_coverage_of
      (keyword_overlap_of (keywords_of resume_text) (keywords_of job_description))
      (keywords_of job_description) = Ok coverage /\
    analyse resume_text job_description =
    [ ("ats_score", VNum (round (combined_similarity results * 100) 2));
      ("similarity_score", VNum (round (combined_similarity results) 4));
      ("tfidf_similarity", VNum (round (tfidf_similarity results) 4));
      ("huggingface_similarity", VNum (round (huggingface_similarity results) 4));
      ("keyword_coverage", VNum (round coverage 2));
      ("resume_keywords", VList (take 15 (keywords_of resume_text)));
      ("job_keywords", VList (take 15 (keywords_of job_description)));
      ("missing_keywords", VList missing_keywords);
      ("suggestions",
         VList (generate_suggestions missing_keywords
                  (combined_similarity results * 100)));
      ("model_method", VStr (method results));
      ("huggingface_available", VBool (use_huggingface self));
      ("analysis_type", VStr "enhanced_hybrid") ].
Proof.
  intros results missing_keywords.
  destruct (keyword_coverage_of_ok
              (keyword_overlap_of (keywords_of resume_text) (keywords_of job_description))
              (keywords_of job_description)) as (coverage & Hcov & _).
  exists coverage. split; [exact Hcov|].
  unfold calculate_ats_score, calculate_ats_score_body. by rewrite Hcov.
Qed.

Lemma round_half_even_proper (x y : Q) :
  x == y -> round_half_even x = round_half_even y.
Proof.
  intros Hxy. unfold round_half_even.
  rewrite (Qfloor_comp x y Hxy).
  assert (Hc : Qcompare (x - inject_Z (Qfloor y)) (1 # 2)
               = Qcompare (y - inject_Z (Qfloor y)) (1 # 2)) by (by rewrite Hxy).
  by rewrite Hc.
Qed.

Lemma round_proper (x y : Q) (ndigits : nat) :
  x == y -> round x ndigits = round y ndigits.
Proof.
  intros Hxy. unfold round.
  rewrite (round_half_even_proper (x * inject_Z (10 ^ Z.of_nat ndigits))
                                  (y * inject_Z (10 ^ Z.of_nat ndigits)));
    [done|]. by rewrite Hxy.
Qed.

Lemma round_integer (z : Z) (ndigits : nat) : round (inject_Z z) ndigits == inject_Z z.
Proof.
  unfold round. set (p := (10 ^ Z.of_nat ndigits)%Z).
  assert (Hp : (0 < p)%Z) by (apply Z.pow_pos_nonneg; lia).
  rewrite (round_half_even_proper _ (inject_Z (z * p)))
    by (by rewrite inject_Z_mult).
  unfold round_half_even. rewrite Qfloor_Z.
  assert (Hlt : Qcompare (inject_Z (z * p) - inject_Z (z * p)) (1 # 2) = Lt).
  { apply Qlt_alt. generalize (inject_Z (z * p)). intros a.
    assert (a - a == 0) as -> by ring. reflexivity. }
  rewrite Hlt, inject_Z_mult. field.
  intros H0. assert (inject_Z 0 < inject_Z p) as Hlt' by (by rewrite <- Zlt_Qlt).
  unfold inject_Z at 1 in Hlt'. lra.
Qed.



Lemma keyword_overlap_le (resume_text job_description : option string) :
  (keyword_overlap_of (keywords_of resume_text) (keywords_of job_description)
   <= length (keywords_of job_description))%nat.
Proof.
  unfold keyword_overlap_of.
  rewrite <- (size_list_to_set (C := gset string) (keywords_of job_description))
    by apply extract_keywords_NoDup.
  apply subseteq_size. intros w Hw. by apply elem_of_intersection in Hw as [_ ?].
Qed.

(** X6. The reported [keyword_coverage] is a percentage: it lies between 0
    and 100. *)
Theorem keyword_coverage_in_range (resume_text job_description : option string) :
  exists coverage : Q,
    dict_get "keyword_coverage" (analyse resume_text job_description)
      = Some (VNum coverage) /\
    0 <= coverage /\ coverage <= 100.
Proof.
  destruct (calculate_ats_score_dict resume_text job_description)
    as (coverage & Hcov & ->).
  eexists. split; [reflexivity|].
  pose proof (keyword_overlap_le resume_text job_description) as Hle.
  destruct (keyword_coverage_of_ok
              (keyword_overlap_of (keywords_of resume_text) (keywords_of job_description))
              (keywords_of job_description)) as (c & Hc & Heq).
  rewrite Hcov in Hc. injection Hc as <-.
  clear Hcov.
  remember (extract_keywords word_tokenize self job_description 20)
    as job_keywords eqn:HJ in *.
  remember (keyword_overlap_of _ job_keywords) as overlap eqn:HO in *.
  clear HJ HO.
  assert (Hrange : 0 <= coverage /\ coverage <= 100).
  { rewrite Heq. destruct job_keywords as [|k ks]; [split; lra|].
    assert (Hn : 0 < inject_Z (Z.of_nat (length (k :: ks)))).
    { change 0 with (inject_Z 0). rewrite <- Zlt_Qlt. simpl length. lia. }
    assert (Ho : 0 <= inject_Z (Z.of_nat overlap)).
    { change 0 with (inject_Z 0). rewrite <- Zle_Qle. lia. }
    assert (Hon : inject_Z (Z.of_nat overlap)
                  <= inject_Z (Z.of_nat (length (k :: ks)))).
    { rewrite <- Zle_Qle. lia. }
    split.
    - apply Qle_shift_div_l; [done|]. lra.
    - apply Qle_shift_div_r; [done|]. lra. }
  change 0 with (inject_Z 0). change 100 with (inject_Z 100).
  apply round_between; unfold inject_Z; lra.
Qed.

(** X7. [generate_suggestions] always gives the level message, adds the
    keyword message exactly when a keyword is missing and the three general
    tips exactly when the score is below 60: between one and five
    suggestions. *)
Theorem generate_suggestions_count (missing_keywords : list string) (ats_score : Q) :
  let suggestions := generate_suggestions missing_keywords ats_score in
  length suggestions
    = (1 + (if bool_decide (missing_keywords = []) then 0 else 1)
         + (if Qltb ats_score 60 then 3 else 0))%nat /\
  (1 <= length suggestions <= 5)%nat.
Proof.
  unfold generate_suggestions.
  destruct (Qltb ats_score 30), (Qltb ats_score 50), (Qltb ats_score 70),
    (Qltb ats_score 60), missing_keywords; simpl; lia.
Qed.

End Entries.

(** ** Edge cases of the gap analysis *)

Section GapEdges.

Variable word_tokenize : string -> list string.
Variable l2_normalize : list Q -> list Q.
Variable set_to_list : gset string -> list string.
Variable self : EnhancedATSResumeScorer.

Hypothesis set_to_list_perm : ∀ X : gset string, set_to_list X ≡ₚ elements X.

Local Abbreviation keywords_of := (fun text => extract_keywords word_tokenize self text 20).
Local Abbreviation analyse :=
  (calculate_ats_score word_tokenize l2_normalize set_to_list self).

Lemma set_to_list_nil (X : gset string) : set_to_list X = [] ↔ X = ∅.
Proof.
  split.
  - intros Hnil. apply leibniz_equiv, elements_empty_inv.
    apply Permutation_nil_r. rewrite <- Hnil. symmetry. apply set_to_list_perm.
  - intros ->. apply Permutation_nil_r. rewrite set_to_list_perm.
    by rewrite elements_empty.
Qed.

Lemma take_ten_nil (l : list string) : take 10 l = [] ↔ l = [].
Proof. destruct l; simpl; split; congruence. Qed.

(** X8. No keyword is reported missing exactly when every keyword
    extracted from the job description is also extracted from the resume. *)
Theorem no_missing_keywords_iff (resume_text job_description : option string) :
  find_missing_keywords word_tokenize set_to_list self resume_text job_description
    = [] ↔
  ∀ w, w ∈ extract_keywords word_tokenize self job_description 20 →
       w ∈ extract_keywords word_tokenize self resume_text 20.
Proof.
  unfold find_missing_keywords. rewrite take_ten_nil, set_to_list_nil.
  split.
  - intros Hempty w Hw.
    destruct (decide (w ∈ keywords_of resume_text)) as [|Hn]; [done|].
    assert (w ∈ (∅ : gset string)) as Hin; [|by apply not_elem_of_empty in Hin].
    rewrite <- Hempty. apply elem_of_difference.
    by rewrite !elem_of_list_to_set.
  - intros Hall. apply set_eq. intros w.
    rewrite elem_of_difference, !elem_of_list_to_set.
    split; [|by intros ?%not_elem_of_empty].
    intros [Hj Hr]. exfalso. by apply Hr, Hall.
Qed.

Lemma empty_text_score (resume_text job_description : option string) :
  preprocess_text resume_text = "" ->
  (round (combined_similarity
            (calculate_hybrid_similarity l2_normalize self resume_text
               job_description) * 100) 2 == 0)%Q.
Proof.
  intros Hempty.
  destruct (similarities_zero_on_empty l2_normalize self resume_text job_description
              (or_introl Hempty)) as [Ht Hh].
  unfold calculate_hybrid_similarity. rewrite Ht, Hh.
  destruct (use_huggingface self), (bool_decide (is_Some (hf_model self)));
    reflexivity.
Qed.

Lemma coverage_of_overlap (overlap : nat) (job_keywords : list string) (target : Q) :
  (match job_keywords with
   | [] => 0
   | _ :: _ => 100 * inject_Z (Z.of_nat overlap)
               / inject_Z (Z.of_nat (length job_keywords))
   end == target)%Q ->
  ∃ coverage : Q,
    keyword_coverage_of overlap job_keywords = Ok coverage ∧
    round coverage 2 = round target 2.
Proof.
  intros Htarget.
  destruct (keyword_coverage_of_ok overlap job_keywords) as (coverage & Hc & Heq).
  exists coverage. split; [done|]. apply round_proper. by rewrite Heq.
Qed.

(** X9. With no resume text ([None] or the empty string) the analysis
    reports score 0, coverage 0 and no resume keyword, and its missing
    keywords are job keywords without repetition: all of them when the job
    description has at most 10, and 10 of them otherwise. *)
Theorem empty_resume_analysis (resume_text job_description : option string) :
  truthy resume_text = false ->
  let analysis := analyse resume_text job_description in
  let job_keywords := extract_keywords word_tokenize self job_description 20 in
  ∃ (score coverage : Q) (missing_entry : list string),
    dict_get "ats_score" analysis = Some (VNum score) ∧ (score == 0)%Q ∧
    dict_get "keyword_coverage" analysis = Some (VNum coverage) ∧
    (coverage == 0)%Q ∧
    dict_get "resume_keywords" analysis = Some (VList []) ∧
    dict_get "missing_keywords" analysis = Some (VList missing_entry) ∧
    NoDup missing_entry ∧
    (∀ w, w ∈ missing_entry → w ∈ job_keywords) ∧
    length missing_entry = (10 `min` length job_keywords)%nat.
Proof.
  intros Htruthy analysis job_keywords.
  assert (Hkw : extract_keywords word_tokenize self resume_text 20 = [])
    by (by destruct resume_text as [[|]|]).
  assert (Hclean : preprocess_text resume_text = "")
    by (by destruct resume_text as [[|]|]).
  destruct (calculate_ats_score_dict word_tokenize l2_normalize set_to_list self
              resume_text job_description) as (coverage & Hcov & Hdict).
  subst analysis. rewrite Hdict. rewrite Hkw in *.
  destruct (coverage_of_overlap (keyword_overlap_of [] job_keywords) job_keywords 0)
    as (c & Hc & Hround).
  { unfold keyword_overlap_of. rewrite list_to_set_nil, intersection_empty_l_L,
      size_empty. destruct job_keywords; [done|]. unfold Qdiv. simpl inject_Z. ring. }
  fold job_keywords in Hcov. rewrite Hcov in Hc. injection Hc as <-.
  set (D := (list_to_set job_keywords ∖ list_to_set [] : gset string)).
  assert (Hnd : NoDup (set_to_list D)).
  { rewrite set_to_list_perm. apply NoDup_elements. }
  eexists _, _, _. split_and!; try reflexivity.
  - by apply empty_text_score.
  - rewrite Hround. reflexivity.
  - unfold find_missing_keywords. rewrite Hkw. fold job_keywords D.
    eapply sublist_NoDup; [exact Hnd | apply sublist_take].
  - unfold find_missing_keywords. rewrite Hkw. fold job_keywords D.
    intros w Hw%subseteq_take. rewrite set_to_list_perm in Hw.
    apply elem_of_elements, elem_of_difference in Hw as [Hw _].
    by apply elem_of_list_to_set in Hw.
  - unfold find_missing_keywords. rewrite Hkw. fold job_keywords D.
    rewrite length_take. f_equal.
    rewrite (Permutation_length (set_to_list_perm D)).
    change (length (elements D)) with (size D). unfold D.
    rewrite list_to_set_nil, difference_empty_L.
    apply size_list_to_set, extract_keywords_NoDup.
Qed.

(** X10. A text analysed against itself has no missing keyword, and its
    keyword coverage is 100 when it has a keyword and 0 when it has none. *)
Theorem self_comparison_analysis (text : option string) :
  let analysis := analyse text text in
  dict_get "missing_keywords" analysis = Some (VList []) ∧
  ∃ coverage : Q,
    dict_get "keyword_coverage" analysis = Some (VNum coverage) ∧
    (coverage ==
       match extract_keywords word_tokenize self text 20 with
       | [] => 0
       | _ :: _ => 100
       end)%Q.
Proof.
  intros analysis.
  destruct (calculate_ats_score_dict word_tokenize l2_normalize set_to_list self
              text text) as (coverage & Hcov & Hdict).
  subst analysis. rewrite Hdict.
  set (keywords := extract_keywords word_tokenize self text 20) in *.
  assert (Hmissing : find_missing_keywords word_tokenize set_to_list self text text = []).
  { unfold find_missing_keywords. fold keywords.
    rewrite difference_diag_L. by rewrite (proj2 (set_to_list_nil ∅)). }
  split; [cbn; by rewrite Hmissing|].
  assert (Hoverlap : keyword_overlap_of keywords keywords = length keywords).
  { unfold keyword_overlap_of. rewrite intersection_idemp_L.
    apply size_list_to_set, extract_keywords_NoDup. }
  destruct (coverage_of_overlap (keyword_overlap_of keywords keywords) keywords
              (match keywords with [] => 0 | _ :: _ => 100 end)%Q)
    as (c & Hc & Hround).
  { rewrite Hoverlap. destruct keywords as [|k ks]; [done|].
    apply Qdiv_mult_l. unfold Qeq. simpl. lia. }
  rewrite Hcov in Hc. injection Hc as <-.
  eexists. split; [reflexivity|]. rewrite Hround.
  destruct keywords; [reflexivity|]. apply (round_integer 100).
Qed.

End GapEdges.

(** ** More on the recommender *)

Section RecommenderMore.

Variable word_tokenize : string -> list string.
Variable l2_normalize : list Q -> list Q.
Variable set_to_list : gset string -> list string.
Variable self : EnhancedATSResumeScorer.

Local Abbreviation analyse :=
  (calculate_ats_score word_tokenize l2_normalize set_to_list self).

Lemma in_category_one keyword :
  in_category "technical_skills" keyword = false ->
  (in_category "action_verbs" keyword = true /\
   in_category "soft_skills" keyword = false /\
   in_category "quantifiers" keyword = false /\
   in_category "other" keyword = false) \/
  (in_category "action_verbs" keyword = false /\
   in_category "soft_skills" keyword = true /\
   in_category "quantifiers" keyword = false /\
   in_category "other" keyword = false) \/
  (in_category "action_verbs" keyword = false /\
   in_category "soft_skills" keyword = false /\
   in_category "quantifiers" keyword = true /\
   in_category "other" keyword = false) \/
  (in_category "action_verbs" keyword = false /\
   in_category "soft_skills" keyword = false /\
   in_category "quantifiers" keyword = false /\
   in_category "other" keyword = true).
Proof using Type.
  unfold in_category, category_of.
  destruct (category_of_cases keyword) as [H | [H | [H | [H | H]]]];
    rewrite H; cbn [default from_option id]; intros Ht;
    first [ discriminate Ht
          | by left
          | by right; left
          | by right; right; left
          | by right; right; right ].
Qed.

Lemma categories_partition keywords :
  List.existsb (in_category "technical_skills") keywords = false ->
  List.filter (in_category "action_verbs") keywords
    ++ List.filter (in_category "soft_skills") keywords
    ++ List.filter (in_category "quantifiers") keywords
    ++ List.filter (in_category "other") keywords ≡ₚ keywords.
Proof using Type.
  induction keywords as [|k rest IH]; [done|].
  cbn [List.existsb List.filter]. intros [Hk Hrest]%orb_false_iff.
  specialize (IH Hrest).
  destruct (in_category_one k Hk)
    as [(-> & -> & -> & ->) | [(-> & -> & -> & ->)
        | [(-> & -> & -> & ->) | (-> & -> & -> & ->)]]].
  - simpl. by rewrite IH.
  - cbn [app]. rewrite <- Permutation_middle. by rewrite IH.
  - cbn [app]. rewrite app_assoc, <- Permutation_middle, <- app_assoc.
    by rewrite IH.
  - rewrite !app_assoc, <- Permutation_middle, <- !app_assoc. by rewrite IH.
Qed.

(** X13. On a list with no [technical_skills] keyword, [_categorize_keywords]
    returns the five lists with [technical] empty, and the other four hold
    every keyword exactly once between them, each in the list of its
    category. *)
Theorem categorize_keywords_partition (keywords : list string) :
  List.existsb (in_category "technical_skills") keywords = false ->
  exists action soft quantifier other : list string,
    _categorize_keywords keywords
      = Ok [ ("technical", []); ("action_verbs", action); ("soft_skills", soft);
             ("quantifiers", quantifier); ("other", other) ] /\
    action ++ soft ++ quantifier ++ other ≡ₚ keywords /\
    (forall w, w ∈ action <-> w ∈ keywords /\ category_of w = "action_verbs") /\
    (forall w, w ∈ soft <-> w ∈ keywords /\ category_of w = "soft_skills") /\
    (forall w, w ∈ quantifier <-> w ∈ keywords /\ category_of w = "quantifiers") /\
    (forall w, w ∈ other <-> w ∈ keywords /\ category_of w = "other").
Proof using Type.
  intros Hno. rewrite categorize_keywords_spec, Hno. unfold categorized_by.
  eexists _, _, _, _. split; [reflexivity|].
  split; [by apply categories_partition|].
  split_and!; intros w;
    rewrite list_elem_of_In, filter_In, <- list_elem_of_In;
    unfold in_category; by rewrite String.eqb_eq.
Qed.

(** Every part of a successful [generate_recommendations]. *)
Lemma generate_recommendations_inv (analysis : dict value) (rec : Recommendations) :
  generate_recommendations analysis = Ok rec ->
  exists (ats_score : Q) (missing_keywords resume_keywords : list string),
    get_num "ats_score" 0 analysis = Ok ats_score /\
    get_list "missing_keywords" [] analysis = Ok missing_keywords /\
    get_list "resume_keywords" [] analysis = Ok resume_keywords /\
    priority rec = _determine_priority ats_score /\
    _analyze_sections analysis = Ok (sections rec) /\
    _analyze_keywords missing_keywords resume_keywords = Ok (keywords rec) /\
    _analyze_format analysis = Ok (format rec) /\
    _analyze_content analysis = Ok (content rec) /\
    _analyze_ats_optimization analysis = Ok (ats_optimization rec) /\
    overall_score rec
      = _calculate_recommendation_score (priority rec) (sections rec) (keywords rec).
Proof using Type.
  unfold generate_recommendations.
  destruct (get_num "ats_score" 0 analysis) as [ats_score|]; cbn; [|done].
  destruct (get_list "missing_keywords" [] analysis) as [missing_keywords|];
    cbn; [|done].
  destruct (get_list "resume_keywords" [] analysis) as [resume_keywords|];
    cbn; [|done].
  destruct (_analyze_sections analysis); cbn; [|done].
  destruct (_analyze_keywords missing_keywords resume_keywords) eqn:Hkw;
    cbn; [|done].
  destruct (_analyze_format analysis); cbn; [|done].
  destruct (_analyze_content analysis); cbn; [|done].
  destruct (_analyze_ats_optimization analysis); cbn; [|done].
  intros [= <-]. eexists _, _, _. split_and!; try done.
Qed.

Lemma determine_priority_cases (ats_score : Q) :
  _determine_priority ats_score = "high" \/
  _determine_priority ats_score = "medium" \/
  _determine_priority ats_score = "low".
Proof using Type.
  unfold _determine_priority.
  destruct (Qltb ats_score 30); [by left|].
  destruct (Qltb ats_score 60); [by right; left | by right; right].
Qed.

Lemma analyze_sections_four (analysis : dict value) (sections : dict SectionInfo) :
  _analyze_sections analysis = Ok sections ->
  (length (List.filter (fun section : string * SectionInfo =>
                          negb (present section.2)) sections) <= 4)%nat.
Proof using Type.
  unfold _analyze_sections.
  destruct (get_str "resume_text" "" analysis) as [resume_text|]; cbn; [|done].
  intros [= <-]. unfold check_section.
  repeat match goal with
         | |- context [List.existsb ?f ?l] => destruct (List.existsb f l)
         end; simpl; lia.
Qed.

(** X15. The overall score of every recommendation bundle lies between 10
    and 100: the deductions never add up to more than 90, so the clamp to
    [0, 100] in [_calculate_recommendation_score] is not reached. *)
Theorem overall_score_range (analysis : dict value) :
  match generate_recommendations analysis with
  | Ok rec => (10 <= overall_score rec <= 100)%Z
  | Raise _ => True
  end.
Proof using Type.
  destruct (generate_recommendations analysis) as [rec|] eqn:Hgen; [|done].
  destruct (generate_recommendations_inv analysis rec Hgen)
    as (ats_score & missing & resume & _ & _ & _ & Hprio & Hsec & _ & _ & _ & _ & ->).
  pose proof (analyze_sections_four analysis _ Hsec) as Hfour.
  unfold _calculate_recommendation_score.
  set (absent := length _) in *.
  rewrite Hprio.
  destruct (determine_priority_cases ats_score) as [-> | [-> | ->]];
    cbn [String.eqb Ascii.eqb Bool.eqb];
    destruct (10 <? missing_count (keywords rec))%nat,
             (5 <? missing_count (keywords rec))%nat; lia.
Qed.

Lemma analyze_keywords_count (missing_keywords resume_keywords : list string)
    (report : KeywordAnalysis) :
  _analyze_keywords missing_keywords resume_keywords = Ok report ->
  missing_count report = length missing_keywords.
Proof using Type.
  unfold _analyze_keywords.
  destruct (_categorize_keywords missing_keywords); cbn [mbind result_bind]; [|done].
  destruct (category_advice _). by intros [= <-].
Qed.

Lemma category_advice_additions (keywords : list string) :
  (category_advice (categorized_by keywords)).2
  = take 5 (List.filter (in_category "action_verbs") keywords)
    ++ take 5 (List.filter (in_category "soft_skills") keywords)
    ++ take 5 (List.filter (in_category "quantifiers") keywords)
    ++ take 5 (List.filter (in_category "other") keywords).
Proof using Type.
  unfold categorized_by. cbn [category_advice].
  destruct (List.filter (in_category "action_verbs") keywords),
    (List.filter (in_category "soft_skills") keywords),
    (List.filter (in_category "quantifiers") keywords),
    (List.filter (in_category "other") keywords);
    cbn [snd take]; by rewrite ?app_nil_r.
Qed.

Lemma category_advice_count (keywords : list string) :
  List.existsb (in_category "technical_skills") keywords = false ->
  (length (category_advice (categorized_by keywords)).1 <= 4)%nat /\
  ((category_advice (categorized_by keywords)).1 = [] <-> keywords = []).
Proof using Type.
  intros Hno. pose proof (categories_partition keywords Hno) as Hperm.
  unfold categorized_by. cbn [category_advice].
  destruct (List.filter (in_category "action_verbs") keywords),
    (List.filter (in_category "soft_skills") keywords),
    (List.filter (in_category "quantifiers") keywords),
    (List.filter (in_category "other") keywords);
    cbn [fst snd length]; (split; [lia|]);
    (split; [intros Hnil | intros ->]);
    first [ discriminate Hnil
          | by apply Permutation_nil_l in Hperm
          | by apply Permutation_nil_r in Hperm
          | done ].
Qed.

(** X14. The keyword step of the recommender either fails with the
    [KeyError] of the [technical_skills] slip, exactly when a missing keyword
    falls in that category, or reports the two counts, at most four pieces
    of advice (none only when nothing is missing) and suggested additions
    taken from the missing keywords: all of them when there are at most
    five. *)
Theorem analyze_keywords_advice (missing_keywords resume_keywords : list string) :
  match _analyze_keywords missing_keywords resume_keywords with
  | Ok report =>
      List.existsb (in_category "technical_skills") missing_keywords = false /\
      missing_count report = length missing_keywords /\
      present_count report = length resume_keywords /\
      (length (keyword_recommendations report) <= 4)%nat /\
      (keyword_recommendations report = [] <-> missing_keywords = []) /\
      (forall w, w ∈ suggested_additions report -> w ∈ missing_keywords) /\
      ((length missing_keywords <= 5)%nat ->
       suggested_additions report ≡ₚ missing_keywords)
  | Raise e =>
      e = KeyError "technical_skills" /\
      List.existsb (in_category "technical_skills") missing_keywords = true
  end.
Proof using Type.
  unfold _analyze_keywords. rewrite categorize_keywords_spec.
  destruct (List.existsb (in_category "technical_skills") missing_keywords) eqn:Hno;
    cbn [mbind result_bind]; [done|].
  pose proof (category_advice_additions missing_keywords) as Hadds.
  destruct (category_advice_count missing_keywords Hno) as [Hcount Hnil].
  destruct (category_advice (categorized_by missing_keywords)) as [recs adds].
  cbn [fst snd] in *.
  cbn [missing_count present_count keyword_recommendations suggested_additions].
  split_and!; try done.
  - intros w. rewrite Hadds, !elem_of_app.
    intros Hw. 
    assert (Hsub : forall c, w ∈ take 5 (List.filter (in_category c) missing_keywords)
                             -> w ∈ missing_keywords).
    { intros c Hin%subseteq_take.
      apply list_elem_of_In, filter_In in Hin as [Hin _]. by apply list_elem_of_In. }
    destruct Hw as [Hw | [Hw | [Hw | Hw]]]; by apply Hsub in Hw.
  - intros Hfive. rewrite Hadds.
    assert (Hall : forall c, take 5 (List.filter (in_category c) missing_keywords)
                             = List.filter (in_category c) missing_keywords).
    { intros c. apply take_ge.
      pose proof (filter_length_le (in_category c) missing_keywords). lia. }
    rewrite !Hall. by apply categories_partition.
Qed.

(** X16. Recommendations for an analysis of the scorer: the analysis has no
    [resume_text] entry, so the four sections always count as absent and no
    formatting issue is ever found, and it lists at most ten missing
    keywords; the overall score is therefore 60 less the deduction for the
    priority and 10 more when over five keywords are missing, which lies
    between 20 and 60. *)
Theorem scorer_analysis_overall_score (resume_text job_description : option string) :
  let analysis := analyse resume_text job_description in
  let missing_keywords :=
    find_missing_keywords word_tokenize set_to_list self resume_text job_description in
  match generate_recommendations analysis with
  | Ok rec =>
      overall_score rec
        = (60 - (if String.eqb (priority rec) "high" then 30
                 else if String.eqb (priority rec) "medium" then 15 else 0)
              - (if (5 <? length missing_keywords)%nat then 10 else 0))%Z /\
      (20 <= overall_score rec <= 60)%Z /\
      critical_issues (ats_optimization rec) = [] /\
      tips (format rec) = []
  | Raise _ => True
  end.
Proof.
  intros analysis missing_keywords.
  destruct (generate_recommendations analysis) as [rec|] eqn:Hgen; [|done].
  destruct (generate_recommendations_inv analysis rec Hgen)
    as (ats_score & missing & resume & _ & Hmiss' & _ & Hprio & Hsec & Hkw
        & Hfmt & _ & Hats & Hscore).
  destruct (calculate_ats_score_entries word_tokenize l2_normalize set_to_list self
              resume_text job_description)
    as (_ & _ & _ & _ & _ & _ & _ & _ & Hmiss & Htext & Hcount).
  fold analysis in Hmiss, Htext, Hcount. fold missing_keywords in Hmiss.
  unfold get_list in Hmiss'. rewrite Hmiss in Hmiss'. injection Hmiss' as <-.
  rewrite (analyze_sections_without_text analysis Htext) in Hsec.
  injection Hsec as Hsec.
  destruct (analyze_format_without_count analysis Htext Hcount)
    as (report & Hfmt' & _ & Htips).
  rewrite Hfmt' in Hfmt. injection Hfmt as Hfmt.
  unfold _analyze_ats_optimization, get_str in Hats. rewrite Htext in Hats.
  cbn in Hats. injection Hats as Hats.
  pose proof (analyze_keywords_count missing_keywords resume _ Hkw) as Hcnt.
  assert (Hten : (length missing_keywords <= 10)%nat).
  { unfold missing_keywords, find_missing_keywords. rewrite length_take. lia. }
  assert (Hformula : overall_score rec
    = (60 - (if String.eqb (priority rec) "high" then 30
             else if String.eqb (priority rec) "medium" then 15 else 0)
          - (if (5 <? length missing_keywords)%nat then 10 else 0))%Z).
  { rewrite Hscore. unfold _calculate_recommendation_score.
    rewrite <- Hsec, Hcnt. cbn [sections_all_absent List.filter present snd negb length].
    destruct (Nat.ltb_spec 10 (length missing_keywords)); [lia|].
    destruct (String.eqb (priority rec) "high");
      [|destruct (String.eqb (priority rec) "medium")];
      destruct (5 <? length missing_keywords)%nat; lia. }
  split; [exact Hformula|]. split.
  - rewrite Hformula.
    destruct (String.eqb (priority rec) "high");
      [|destruct (String.eqb (priority rec) "medium")];
      destruct (5 <? length missing_keywords)%nat; lia.
  - by rewrite <- Hats, <- Hfmt.
Qed.

End RecommenderMore.

(** ** The priority list *)

Section PriorityList.

Lemma slice_to_nonneg {A : Type} (k : Z) (l : list A) :
  (0 <= k)%Z -> slice_to k l = take (Z.to_nat k) l.
Proof. intros Hk. unfold slice_to. by destruct (Z.leb_spec 0 k); [|lia]. Qed.

Lemma priority_sections_fold (limit : Z) (sections : dict SectionInfo)
    (found : list string) :
  (0 <= limit)%Z ->
  fold_left
    (fun (priority_recs : list string) (entry : string * SectionInfo) =>
       if negb (present entry.2) && (Z.of_nat (length priority_recs) <? limit)%Z
       then priority_recs ++ ["Add " +:+ entry.1 +:+ " section"]
       else priority_recs)
    sections (take (Z.to_nat limit) found)
  = take (Z.to_nat limit) (found ++ section_additions sections).
Proof.
  intros Hlimit. revert found.
  induction sections as [|[name info] rest IH]; intros found.
  - unfold section_additions. simpl. by rewrite app_nil_r.
  - assert (Hadd : section_additions ((name, info) :: rest)
                   = if present info then section_additions rest
                     else ("Add " +:+ name +:+ " section") :: section_additions rest).
    { unfold section_additions. cbn [List.filter List.map fst snd].
      by destruct (present info). }
    rewrite Hadd. cbn [fold_left fst snd].
    destruct (present info); cbn [negb andb].
    + apply IH.
    + replace (found ++ ("Add " +:+ name +:+ " section") :: section_additions rest)
        with ((found ++ ["Add " +:+ name +:+ " section"]) ++ section_additions rest)
        by (by rewrite <- app_assoc).
      rewrite <- IH. f_equal.
      rewrite length_take.
      destruct (Z.ltb_spec (Z.of_nat (Z.to_nat limit `min` length found)) limit)
        as [Hlt | Hge].
      * rewrite (take_ge found) by lia. rewrite take_ge; [done|].
        rewrite length_app. simpl. lia.
      * rewrite take_app_le by lia. done.
Qed.

(** X18. For a limit that is not negative, [get_priority_recommendations]
    returns the first [limit] entries of the critical issues, followed by
    an "Add ... section" entry for each absent section, followed by the
    keyword advice: never more than [limit] entries, and all of them when
    there are no more than [limit]. *)
Theorem priority_recommendations_prefix (recommendations : Recommendations)
    (limit : Z) :
  (0 <= limit)%Z ->
  let every :=
    critical_issues (ats_optimization recommendations)
      ++ section_additions (sections recommendations)
      ++ keyword_recommendations (keywords recommendations) in
  get_priority_recommendations recommendations limit
    = take (Z.to_nat limit) every /\
  (Z.of_nat (length (get_priority_recommendations recommendations limit))
     <= limit)%Z /\
  ((Z.of_nat (length every) <= limit)%Z ->
   get_priority_recommendations recommendations limit = every).
Proof.
  intros Hlimit every.
  assert (Heq : get_priority_recommendations recommendations limit
                = take (Z.to_nat limit) every).
  { unfold get_priority_recommendations.
    rewrite (slice_to_nonneg limit (critical_issues _)) by done.
    rewrite priority_sections_fold by done.
    set (found := critical_issues _ ++ section_additions _).
    rewrite (slice_to_nonneg _ (keyword_recommendations _))
      by (rewrite length_take; lia).
    rewrite slice_to_nonneg by done.
    unfold every. rewrite app_assoc. fold found.
    rewrite !take_app, !take_take, Nat.min_id, !length_take.
    do 2 f_equal. lia. }
  split; [exact Heq|]. split.
  - rewrite Heq, length_take. lia.
  - intros Hall. rewrite Heq. apply take_ge. lia.
Qed.

End PriorityList.

(** ** The table of missing keywords *)

Section ReportRows.

Lemma keyword_rows_three (a b c : string) (rest : list string) :
  keyword_rows (a :: b :: c :: rest) = [a; b; c] :: keyword_rows rest.
Proof.
  unfold keyword_rows, range_step. cbn [length].
  replace (S (S (S (length rest))) + 3 - 1)%nat
    with ((length rest + 3 - 1) + 1 * 3)%nat by lia.
  rewrite Nat.div_add by done. rewrite Nat.add_1_r.
  cbn [seq List.map]. f_equal.
  rewrite <- seq_shift, !List.map_map.
  apply List.map_ext. intros k. unfold slice.
  replace (S k * 3)%nat with (S (S (S (k * 3)))) by lia.
  replace (S (S (S (k * 3))) + 3 - S (S (S (k * 3))))%nat
    with (k * 3 + 3 - k * 3)%nat by lia.
  reflexivity.
Qed.

Lemma keyword_rows_concat (n : nat) (missing_keywords : list string) :
  (length missing_keywords < n)%nat ->
  concat (keyword_rows missing_keywords)
  = missing_keywords
      ++ replicate (3 * ((length missing_keywords + 2) / 3)
                    - length missing_keywords) EmptyString.
Proof.
  revert missing_keywords. induction n as [|n IH]; intros l Hlen; [lia|].
  destruct l as [|a [|b [|c rest]]]; try reflexivity.
  rewrite keyword_rows_three. cbn [concat length].
  rewrite IH by (simpl in Hlen; lia).
  replace (S (S (S (length rest))) + 2)%nat
    with ((length rest + 2) + 1 * 3)%nat by lia.
  rewrite Nat.div_add by done.
  replace (3 * ((length rest + 2) / 3 + 1) - S (S (S (length rest))))%nat
    with (3 * ((length rest + 2) / 3) - length rest)%nat by lia.
  reflexivity.
Qed.

(** X19. The table of missing keywords in the report: every row has three
    cells, there is one row for every three keywords (rounded up), and the
    cells read row by row are the missing keywords followed by the empty
    cells that fill the last row. *)
Theorem keyword_rows_table (missing_keywords : list string) :
  let rows := keyword_rows missing_keywords in
  Forall (fun row => length row = 3%nat) rows /\
  length rows = ((length missing_keywords + 2) / 3)%nat /\
  concat rows
  = missing_keywords
      ++ replicate (3 * ((length missing_keywords + 2) / 3)
                    - length missing_keywords) EmptyString.
Proof.
  intros rows. split_and!.
  - unfold rows, keyword_rows. apply Forall_forall. intros row.
    rewrite list_elem_of_In, in_map_iff. intros (i & <- & _).
    rewrite length_app, length_replicate. unfold slice.
    rewrite length_take. lia.
  - unfold rows, keyword_rows, range_step.
    rewrite !List.length_map, length_seq. f_equal. lia.
  - apply (keyword_rows_concat (S (length missing_keywords))). lia.
Qed.

End ReportRows.

(** ** Levels, colours and opening suggestions *)

Section ScoreLabels.

Local Open Scope Q_scope.

Lemma Qgeb_antitone (score a b : Q) :
  a <= b -> Qgeb score b = true -> Qgeb score a = true.
Proof.
  unfold Qgeb. rewrite !Qle_bool_iff. intros Hab Hb. by apply (Qle_trans _ b).
Qed.

Lemma Qltb_Qgeb (x y : Q) : Qltb x y = negb (Qgeb x y).
Proof. reflexivity. Qed.

(** X20. The report and the scorer cut the score at the same points 30, 50
    and 70 (the report also at 85): the colour of the report is the colour
    of its level, and the opening suggestion of the scorer is fixed by that
    level, [Excellent] for the report's levels [Excellent] and [Good] and
    one name higher than the report's for the levels below. *)
Theorem score_labels_agree (score : Q) (missing_keywords : list string) :
  let interpretation := _get_score_interpretation score in
  _get_score_color score = color_of_level (level interpretation) /\
  head (generate_suggestions missing_keywords score)
    = Some (suggestion_of_level (level interpretation)).
Proof.
  intros interpretation. subst interpretation.
  unfold _get_score_color, _get_score_interpretation, generate_suggestions.
  rewrite !Qltb_Qgeb.
  pose proof (Qgeb_antitone score 70 85 ltac:(discriminate)) as H85.
  pose proof (Qgeb_antitone score 60 70 ltac:(discriminate)) as H70.
  pose proof (Qgeb_antitone score 50 60 ltac:(discriminate)) as H60.
  pose proof (Qgeb_antitone score 30 50 ltac:(discriminate)) as H50.
  destruct (Qgeb score 85), (Qgeb score 70), (Qgeb score 60), (Qgeb score 50),
    (Qgeb score 30);
    try (by discriminate H85); try (by discriminate H70);
    try (by discriminate H60); try (by discriminate H50);
    (split; [done|]); by destruct missing_keywords.
Qed.

End ScoreLabels.

(** ** The model store and the construction of the scorer *)

Section Store.

Variable HUGGINGFACE_AVAILABLE : bool.
Variable english_stopwords : gset string.
Variable fit : list string -> Vectorizer.
Variable SentenceTransformer : string -> result Encoder.

Local Abbreviation construct :=
  (__init__ HUGGINGFACE_AVAILABLE english_stopwords fit SentenceTransformer).







(** X23. After construction the flag [use_huggingface] is set exactly when
    an embedding model is loaded, so the test of the hybrid similarity
    comes down to the flag; this needs the request, the library and one of
    the two models to load, and the general-purpose model is taken only
    when the resume model fails to load. *)
Theorem init_semantic_engine (model_manager : ModelManager) (model_name : string)
    (use_huggingface_arg : bool) :
  let scorer := (construct model_manager model_name use_huggingface_arg).1 in
  let primary := SentenceTransformer "anass1209/resume-job-matcher-all-MiniLM-L6-v2" in
  let fallback := SentenceTransformer "sentence-transformers/all-MiniLM-L6-v2" in
  (use_huggingface scorer = true <-> is_Some (hf_model scorer)) /\
  semantic_available scorer = use_huggingface scorer /\
  (use_huggingface scorer = true <->
   use_huggingface_arg = true /\ HUGGINGFACE_AVAILABLE = true /\
   exists model : Encoder, primary = Ok model \/ fallback = Ok model) /\
  (forall model : Encoder,
      hf_model scorer = Some model ->
      primary = Ok model \/
      (exists e : exn, primary = Raise e) /\ fallback = Ok model).
Proof.
  intros scorer primary fallback. subst scorer. unfold __init__, semantic_available.
  destruct (load_tfidf_model model_manager model_name) as [mm0 [v|]];
    fold primary fallback;
    destruct use_huggingface_arg, HUGGINGFACE_AVAILABLE; cbn [andb];
    try destruct primary; try destruct fallback;
    cbn [fst use_huggingface hf_model andb];
    rewrite ?bool_decide_eq_true_2 by (by eexists);
    rewrite ?bool_decide_eq_false_2 by (by intros [? ?]);
    (split_and!;
     [ split; [first [done | by eexists] | first [done | by intros [? ?]]]
     | done
     | split;
       [ first [ done
               | intros _; split_and!; try done; eexists; by (left + right) ]
       | first [ done
               | by intros (? & ? & ?)
               | by intros (_ & _ & ? & [? | ?]) ] ]
     | intros model Hm;
       first [ done
             | injection Hm as <-;
               first [ by left | right; split; [by eexists | done] ] ] ]).
Qed.

End Store.

(** ** More worked instances *)

Section MoreInstances.

Import Sample.

Local Abbreviation analyse_with :=
  (calculate_ats_score split_words normalize_axis elements).

(** The walk of [elements] is one admissible order of a set. *)
Local Lemma elements_order (X : gset string) : elements X ≡ₚ elements X.
Proof. reflexivity. Defined.

(** X8 at a resume that has the one keyword of the job description. *)
Lemma no_missing_keywords_iff_witness :
  (∀ X : gset string, elements X ≡ₚ elements X) ∧
  (find_missing_keywords split_words elements lexical_scorer
     (Some "python developer") (Some "python") = [] ↔
   ∀ w, w ∈ extract_keywords split_words lexical_scorer (Some "python") 20 →
        w ∈ extract_keywords split_words lexical_scorer (Some "python developer") 20).
Proof.
  split; [exact elements_order|].
  exact (no_missing_keywords_iff split_words elements lexical_scorer elements_order
           (Some "python developer") (Some "python")).
Defined.

(** X9 at the empty resume and a job description of three keywords. *)
Lemma empty_resume_analysis_witness :
  (∀ X : gset string, elements X ≡ₚ elements X) ∧
  truthy (Some "") = false ∧
  let analysis := analyse_with lexical_scorer (Some "") (Some "agile python developer") in
  let job_keywords :=
    extract_keywords split_words lexical_scorer (Some "agile python developer") 20 in
  ∃ (score coverage : Q) (missing_entry : list string),
    dict_get "ats_score" analysis = Some (VNum score) ∧ (score == 0)%Q ∧
    dict_get "keyword_coverage" analysis = Some (VNum coverage) ∧
    (coverage == 0)%Q ∧
    dict_get "resume_keywords" analysis = Some (VList []) ∧
    dict_get "missing_keywords" analysis = Some (VList missing_entry) ∧
    NoDup missing_entry ∧
    (∀ w, w ∈ missing_entry → w ∈ job_keywords) ∧
    length missing_entry = (10 `min` length job_keywords)%nat.
Proof.
  split; [exact elements_order|]. split; [reflexivity|].
  exact (empty_resume_analysis split_words normalize_axis elements lexical_scorer
           elements_order (Some "") (Some "agile python developer") eq_refl).
Defined.

(** X10 at a text of two keywords. *)
Lemma self_comparison_analysis_witness :
  (∀ X : gset string, elements X ≡ₚ elements X) ∧
  let analysis :=
    analyse_with lexical_scorer (Some "python developer") (Some "python developer") in
  dict_get "missing_keywords" analysis = Some (VList []) ∧
  ∃ coverage : Q,
    dict_get "keyword_coverage" analysis = Some (VNum coverage) ∧
    (coverage ==
       match extract_keywords split_words lexical_scorer (Some "python developer") 20 with
       | [] => 0
       | _ :: _ => 100
       end)%Q.
Proof.
  split; [exact elements_order|].
  exact (self_comparison_analysis split_words normalize_axis elements lexical_scorer
           elements_order (Some "python developer")).
Defined.

(** X11 at two texts with lexical and semantic similarity 0. *)
Lemma ats_score_in_range_witness :
  (0 <= calculate_tfidf_similarity normalize_axis lexical_scorer
          (Some "python developer") (Some "agile python developer") <= 1)%Q ∧
  (0 <= calculate_huggingface_similarity normalize_axis lexical_scorer
          (Some "python developer") (Some "agile python developer") <= 1)%Q ∧
  ∃ score : Q,
    dict_get "ats_score"
      (analyse_with lexical_scorer (Some "python developer")
         (Some "agile python developer")) = Some (VNum score) ∧
    (0 <= score <= 100)%Q.
Proof.
  assert (Ht : (0 <= calculate_tfidf_similarity normalize_axis lexical_scorer
                       (Some "python developer") (Some "agile python developer")
                <= 1)%Q) by (split; discriminate).
  assert (Hh : (0 <= calculate_huggingface_similarity normalize_axis lexical_scorer
                       (Some "python developer") (Some "agile python developer")
                <= 1)%Q) by (split; discriminate).
  split; [exact Ht|]. split; [exact Hh|].
  exact (ats_score_in_range split_words normalize_axis elements lexical_scorer
           (Some "python developer") (Some "agile python developer") Ht Hh).
Defined.

(** X12 at a resume of punctuation only. *)
Lemma ats_score_zero_on_empty_witness :
  (preprocess_text (Some "?!") = "" ∨ preprocess_text (Some "python") = "") ∧
  ∃ score : Q,
    dict_get "ats_score" (analyse_with hybrid_scorer (Some "?!") (Some "python"))
      = Some (VNum score) ∧
    (score == 0)%Q.
Proof.
  split; [by left|].
  exact (ats_score_zero_on_empty split_words normalize_axis elements hybrid_scorer
           (Some "?!") (Some "python") (or_introl eq_refl)).
Defined.

(** X13 at one keyword of each category but [technical_skills]. *)
Lemma categorize_keywords_partition_witness :
  List.existsb (in_category "technical_skills")
    ["managed"; "leadership"; "saved"; "python"] = false ∧
  ∃ action soft quantifier other : list string,
    _categorize_keywords ["managed"; "leadership"; "saved"; "python"]
      = Ok [ ("technical", []); ("action_verbs", action); ("soft_skills", soft);
             ("quantifiers", quantifier); ("other", other) ] ∧
    action ++ soft ++ quantifier ++ other
      ≡ₚ ["managed"; "leadership"; "saved"; "python"] ∧
    (∀ w, w ∈ action ↔
          w ∈ ["managed"; "leadership"; "saved"; "python"] ∧
          category_of w = "action_verbs") ∧
    (∀ w, w ∈ soft ↔
          w ∈ ["managed"; "leadership"; "saved"; "python"] ∧
          category_of w = "soft_skills") ∧
    (∀ w, w ∈ quantifier ↔
          w ∈ ["managed"; "leadership"; "saved"; "python"] ∧
          category_of w = "quantifiers") ∧
    (∀ w, w ∈ other ↔
          w ∈ ["managed"; "leadership"; "saved"; "python"] ∧
          category_of w = "other").
Proof.
  split; [reflexivity|].
  exact (categorize_keywords_partition ["managed"; "leadership"; "saved"; "python"]
           eq_refl).
Defined.

(** X18 at recommendations with three candidate entries and the limit 2. *)
Lemma priority_recommendations_prefix_witness :
  (0 <= 2)%Z ∧
  let every :=
    critical_issues (ats_optimization recommendations)
      ++ section_additions (sections recommendations)
      ++ keyword_recommendations (keywords recommendations) in
  get_priority_recommendations recommendations 2 = take (Z.to_nat 2) every ∧
  (Z.of_nat (length (get_priority_recommendations recommendations 2)) <= 2)%Z ∧
  ((Z.of_nat (length every) <= 2)%Z →
   get_priority_recommendations recommendations 2 = every).
Proof.
  split; [discriminate|].
  apply (priority_recommendations_prefix recommendations 2). discriminate.
Defined.

End MoreInstances.
